(** * vattenpump: pump controller and sensor reader

    A shallow embedding of the [PumpController] and [SensorReader] classes of
    the repository (src/app.py, with the Tk variant of src/pump_control.py),
    and the properties of them that the specification states.

    Conventions of the embedding:
    - Python [int] is [Z]; Python [float] is IEEE binary64, given by the
      Standard Library's [SpecFloat] at precision 53 and [emax] 1024.
    - A method is a computation in the monad [M]: it reads and updates the
      object's fields and appends to a log of the observable calls it makes
      (GPIO writes, PWM duty cycles, the progress callback, [time.sleep]).
      [print] is not logged.
    - The thread that [start_timer] spawns is a [worker] value kept next to
      the controller; it runs from one [time.sleep(1)] to the next in one
      step, and the caller's methods run in one step each. *)

From Stdlib Require Import ZArith List Bool Lia.
From Stdlib Require Import Floats.SpecFloat.
Import ListNotations.

Open Scope Z_scope.

(** ** The Python primitives the code uses *)

Module Py.

(** The exceptions the modelled expressions can raise. *)
Inductive exception : Type :=
| IndexError
| ZeroDivisionError
| OverflowError
| ValueError.

Definition result (A : Type) : Type := (exception + A)%type.

Definition exception_eqb (a b : exception) : bool :=
  match a, b with
  | IndexError, IndexError
  | ZeroDivisionError, ZeroDivisionError
  | OverflowError, OverflowError
  | ValueError, ValueError => true
  | _, _ => false
  end.

(** [xs[i]] on a list: a negative index counts from the end, an index
    outside [-len(xs) .. len(xs)-1] raises [IndexError]. *)
Definition getitem {A : Type} (xs : list A) (i : Z) : result A :=
  let n := Z.of_nat (length xs) in
  let j := if i <? 0 then i + n else i in
  if (j <? 0) || (n <=? j) then inl IndexError
  else match nth_error xs (Z.to_nat j) with
       | Some x => inr x
       | None => inl IndexError
       end.

(** [range(start, stop, -1)] as the list of the values it yields. *)
Fixpoint countdown (start : Z) (n : nat) : list Z :=
  match n with
  | O => []
  | S n' => start :: countdown (start - 1) n'
  end.

Definition range_down (start stop : Z) : list Z :=
  countdown start (Z.to_nat (start - stop)).

(** *** binary64 *)

Definition prec : Z := 53.
Definition emax : Z := 1024.

Definition float : Type := spec_float.

(** The float nearest to an [int]; exact below [2^53]. *)
Definition float_of_int (z : Z) : float :=
  match z with
  | Z0 => S754_zero false
  | Zpos p => binary_round prec emax false p 0
  | Zneg p => binary_round prec emax true p 0
  end.

(** [a / b] on two [int]s: the correctly rounded quotient of the two
    integers; [ZeroDivisionError] for [b = 0], [OverflowError] when the
    quotient is too large for a float. *)
Definition int_truediv (a b : Z) : result float :=
  if b =? 0 then inl ZeroDivisionError
  else
    let unrounded (z : Z) : float :=
      match z with
      | Z0 => S754_zero false
      | Zpos p => S754_finite false p 0
      | Zneg p => S754_finite true p 0
      end in
    match SFdiv prec emax (unrounded a) (unrounded b) with
    | S754_infinity _ => inl OverflowError
    | q => inr q
    end.

(** [x * n] for a float [x] and an [int] [n] below [2^53]. *)
Definition float_mul_int (x : float) (n : Z) : float :=
  SFmul prec emax x (float_of_int n).

(** [int(x)]: truncation toward zero. *)
Definition int_of_float (x : float) : result Z :=
  match x with
  | S754_zero _ => inr 0
  | S754_infinity _ => inl OverflowError
  | S754_nan => inl ValueError
  | S754_finite s m e =>
      let a := match e with
               | Zneg k => Z.shiftr (Zpos m) (Zpos k)
               | _ => Z.shiftl (Zpos m) e
               end in
      inr (if s then - a else a)
  end.

End Py.

(** ** Observable calls and the method monad *)

(** The progress callback is an opaque callable; it is identified by a
    number and its invocations are logged. It is taken to return normally
    and not to call back into the controller. *)
Definition callback : Type := nat.

Inductive event : Type :=
| GPIO_setmode_BCM
| GPIO_setwarnings (flag : bool)
| GPIO_setup_OUT (pin : Z)
| GPIO_output (pin : Z) (high : bool)
| GPIO_cleanup
| PWM_start (pin : Z) (freq : Z) (duty : Z)
| PWM_stop (pin : Z)
| ChangeDutyCycle (pin : Z) (duty : Z)
| Callback (cb : callback) (remaining : Z)
| Sleep (seconds : Z).

Definition is_callback (e : event) : option Z :=
  match e with
  | Callback _ remaining => Some remaining
  | _ => None
  end.

(** The arguments the callback was invoked with, in order. *)
Fixpoint callback_args (log : list event) : list Z :=
  match log with
  | [] => []
  | e :: log' =>
      match is_callback e with
      | Some r => r :: callback_args log'
      | None => callback_args log'
      end
  end.

Section Method.

Context {Self : Type}.

(** A method body: from the object's fields to a return value, the new
    fields and the calls made. *)
Definition M (A : Type) : Type := Self -> A * Self * list event.

Definition ret {A} (a : A) : M A := fun s => (a, s, []).

Definition bind {A B} (m : M A) (k : A -> M B) : M B :=
  fun s =>
    let '(a, s1, l1) := m s in
    let '(b, s2, l2) := k a s1 in
    (b, s2, l1 ++ l2).

Definition get : M Self := fun s => (s, s, []).

Definition assign (f : Self -> Self) : M unit := fun s => (tt, f s, []).

Definition emit (l : list event) : M unit := fun s => (tt, s, l).

Definition when (b : bool) (m : M unit) : M unit :=
  if b then m else ret tt.

Definition returned {A} (r : A * Self * list event) : A := fst (fst r).
Definition self_after {A} (r : A * Self * list event) : Self := snd (fst r).
Definition calls {A} (r : A * Self * list event) : list event := snd r.

End Method.

Declare Scope method_scope.
Delimit Scope method_scope with method.
Notation "x <- m ;; k" := (bind m (fun x => k))
  (at level 61, m at next level, right associativity) : method_scope.
Notation "m ;; k" := (bind m (fun _ => k))
  (at level 61, right associativity) : method_scope.

(** GPIO pin definitions (module level constants of every source file). *)
Definition RPWM : Z := 18.
Definition LPWM : Z := 19.
Definition R_EN : Z := 23.
Definition L_EN : Z := 24.
Definition PWM_FREQ : Z := 1000.

(** ** src/app.py, class PumpController *)

Module PumpController.

Record state : Type := mk {
  simulate : bool;
  is_running : bool;
  current_speed : Z;
  timer_running : bool;
  timer_stop_flag : bool;
  timer_remaining : Z;
  timer_speed : Z;
  update_callback : option callback
}.

Definition set_simulate v s :=
  mk v (is_running s) (current_speed s) (timer_running s)
     (timer_stop_flag s) (timer_remaining s) (timer_speed s) (update_callback s).
Definition set_is_running v s :=
  mk (simulate s) v (current_speed s) (timer_running s)
     (timer_stop_flag s) (timer_remaining s) (timer_speed s) (update_callback s).
Definition set_current_speed v s :=
  mk (simulate s) (is_running s) v (timer_running s)
     (timer_stop_flag s) (timer_remaining s) (timer_speed s) (update_callback s).
Definition set_timer_running v s :=
  mk (simulate s) (is_running s) (current_speed s) v
     (timer_stop_flag s) (timer_remaining s) (timer_speed s) (update_callback s).
Definition set_timer_stop_flag v s :=
  mk (simulate s) (is_running s) (current_speed s) (timer_running s)
     v (timer_remaining s) (timer_speed s) (update_callback s).
Definition set_timer_remaining v s :=
  mk (simulate s) (is_running s) (current_speed s) (timer_running s)
     (timer_stop_flag s) v (timer_speed s) (update_callback s).
Definition set_timer_speed v s :=
  mk (simulate s) (is_running s) (current_speed s) (timer_running s)
     (timer_stop_flag s) (timer_remaining s) v (update_callback s).
Definition set_update_callback v s :=
  mk (simulate s) (is_running s) (current_speed s) (timer_running s)
     (timer_stop_flag s) (timer_remaining s) (timer_speed s) v.

Local Open Scope method_scope.

(** [__init__(simulate)]; [gpio_importable] tells whether
    [import RPi.GPIO] succeeds. The result is the fresh object and the
    GPIO calls made. *)
Definition __init__ (simulate gpio_importable : bool) : state * list event :=
  let fresh := mk simulate false 0 false false 0 0 None in
  if simulate then (fresh, [])
  else if gpio_importable then
    (fresh,
     [GPIO_setmode_BCM; GPIO_setwarnings false;
      GPIO_setup_OUT RPWM; GPIO_setup_OUT LPWM;
      GPIO_setup_OUT R_EN; GPIO_setup_OUT L_EN;
      PWM_start RPWM PWM_FREQ 0; PWM_start LPWM PWM_FREQ 0;
      GPIO_output R_EN false; GPIO_output L_EN false])
  else (set_simulate true fresh, []).

Definition start_pump (speed : Z) : M bool :=
  self <- get ;;
  if is_running self then ret false
  else
    let speed := Z.max 0 (Z.min 100 speed) in
    assign (set_current_speed speed) ;;
    when (negb (simulate self))
      (emit [GPIO_output R_EN true; GPIO_output L_EN true;
             ChangeDutyCycle RPWM speed; ChangeDutyCycle LPWM 0]) ;;
    assign (set_is_running true) ;;
    ret true.

Definition stop_pump : M bool :=
  self <- get ;;
  if negb (is_running self) then ret false
  else
    when (negb (simulate self))
      (emit [ChangeDutyCycle RPWM 0; ChangeDutyCycle LPWM 0;
             GPIO_output R_EN false; GPIO_output L_EN false]) ;;
    assign (set_is_running false) ;;
    assign (set_current_speed 0) ;;
    ret true.

(** [if self.update_callback: self.update_callback(remaining)] *)
Definition notify (remaining : Z) : M unit :=
  self <- get ;;
  match update_callback self with
  | Some cb => emit [Callback cb remaining]
  | None => ret tt
  end.

(** The body of the [for remaining in range(seconds, -1, -1)] loop of
    [_timer_worker], over the values the range still has to yield. *)
Fixpoint countdown_loop (remaining_values : list Z) : M unit :=
  match remaining_values with
  | [] => ret tt
  | remaining :: rest =>
      self <- get ;;
      if timer_stop_flag self then ret tt
      else
        assign (set_timer_remaining remaining) ;;
        notify remaining ;;
        emit [Sleep 1] ;;
        countdown_loop rest
  end.

(** The statements of [_timer_worker] after the loop. *)
Definition worker_finish : M unit :=
  stop_pump ;;
  assign (set_timer_running false) ;;
  assign (set_timer_remaining 0) ;;
  notify 0.

(** [_timer_worker(seconds, speed)] run from start to end with no other
    method running in between. *)
Definition _timer_worker (seconds speed : Z) : M unit :=
  start_pump speed ;;
  countdown_loop (Py.range_down seconds (-1)) ;;
  worker_finish.

(** The thread of [_timer_worker], at the points where other code can
    run: before its first statement, and inside [time.sleep(1)]. *)
Inductive worker : Type :=
| Spawned (seconds speed : Z)
| Sleeping (next_remaining : Z).

(** Top of the loop with [remaining] the next value of the range, up to
    the next [time.sleep(1)] or the end of the function. *)
Definition worker_iteration (remaining : Z) : M (option worker) :=
  if remaining <=? -1 then worker_finish ;; ret None
  else
    self <- get ;;
    if timer_stop_flag self then worker_finish ;; ret None
    else
      assign (set_timer_remaining remaining) ;;
      notify remaining ;;
      emit [Sleep 1] ;;
      ret (Some (Sleeping (remaining - 1))).

Definition worker_resume (w : worker) : M (option worker) :=
  match w with
  | Spawned seconds speed => start_pump speed ;; worker_iteration seconds
  | Sleeping next_remaining => worker_iteration next_remaining
  end.

(** [start_timer(seconds, speed, callback)]: the returned option is the
    thread it starts, if any. *)
Definition start_timer (seconds speed : Z) (cb : option callback)
  : M (bool * option worker) :=
  self <- get ;;
  if timer_running self then ret (false, None)
  else
    assign (set_timer_running true) ;;
    assign (set_timer_stop_flag false) ;;
    assign (set_timer_remaining seconds) ;;
    assign (set_timer_speed speed) ;;
    assign (set_update_callback cb) ;;
    ret (true, Some (Spawned seconds speed)).

Definition stop_timer : M bool :=
  self <- get ;;
  if timer_running self then
    assign (set_timer_stop_flag true) ;;
    stop_pump ;;
    assign (set_timer_running false) ;;
    ret true
  else ret false.

Definition cleanup : M unit :=
  stop_timer ;;
  stop_pump ;;
  ret tt.

End PumpController.

(** ** src/pump_control.py, class PumpController

    The Tk program's controller; the class of src/main.py is the same but
    for its [print] calls and a [timer_thread] field that is only written.
    Its methods return [None], and it keeps no [timer_remaining] and no
    [timer_speed]. *)

Module TkPumpController.

Record state : Type := mk {
  simulate : bool;
  is_running : bool;
  current_speed : Z;
  timer_running : bool;
  timer_stop_flag : bool;
  update_callback : option callback
}.

Definition set_simulate v s :=
  mk v (is_running s) (current_speed s) (timer_running s)
     (timer_stop_flag s) (update_callback s).
Definition set_is_running v s :=
  mk (simulate s) v (current_speed s) (timer_running s)
     (timer_stop_flag s) (update_callback s).
Definition set_current_speed v s :=
  mk (simulate s) (is_running s) v (timer_running s)
     (timer_stop_flag s) (update_callback s).
Definition set_timer_running v s :=
  mk (simulate s) (is_running s) (current_speed s) v
     (timer_stop_flag s) (update_callback s).
Definition set_timer_stop_flag v s :=
  mk (simulate s) (is_running s) (current_speed s) (timer_running s)
     v (update_callback s).
Definition set_update_callback v s :=
  mk (simulate s) (is_running s) (current_speed s) (timer_running s)
     (timer_stop_flag s) v.

Local Open Scope method_scope.

Definition __init__ (simulate gpio_importable : bool) : state * list event :=
  let fresh := mk simulate false 0 false false None in
  if simulate then (fresh, [])
  else if gpio_importable then
    (fresh,
     [GPIO_setmode_BCM; GPIO_setwarnings false;
      GPIO_setup_OUT RPWM; GPIO_setup_OUT LPWM;
      GPIO_setup_OUT R_EN; GPIO_setup_OUT L_EN;
      PWM_start RPWM PWM_FREQ 0; PWM_start LPWM PWM_FREQ 0;
      GPIO_output R_EN false; GPIO_output L_EN false])
  else (set_simulate true fresh, []).

Definition start_pump (speed : Z) : M unit :=
  self <- get ;;
  if is_running self then ret tt
  else
    let speed := Z.max 0 (Z.min 100 speed) in
    assign (set_current_speed speed) ;;
    when (negb (simulate self))
      (emit [GPIO_output R_EN true; GPIO_output L_EN true;
             ChangeDutyCycle RPWM speed; ChangeDutyCycle LPWM 0]) ;;
    assign (set_is_running true).

Definition stop_pump : M unit :=
  self <- get ;;
  if negb (is_running self) then ret tt
  else
    when (negb (simulate self))
      (emit [ChangeDutyCycle RPWM 0; ChangeDutyCycle LPWM 0;
             GPIO_output R_EN false; GPIO_output L_EN false]) ;;
    assign (set_is_running false) ;;
    assign (set_current_speed 0).

Definition notify (remaining : Z) : M unit :=
  self <- get ;;
  match update_callback self with
  | Some cb => emit [Callback cb remaining]
  | None => ret tt
  end.

Fixpoint countdown_loop (remaining_values : list Z) : M unit :=
  match remaining_values with
  | [] => ret tt
  | remaining :: rest =>
      self <- get ;;
      if timer_stop_flag self then ret tt
      else
        notify remaining ;;
        emit [Sleep 1] ;;
        countdown_loop rest
  end.

Definition _timer_worker (seconds speed : Z) : M unit :=
  start_pump speed ;;
  countdown_loop (Py.range_down seconds (-1)) ;;
  stop_pump ;;
  assign (set_timer_running false) ;;
  notify 0.

(** [start_timer]: the returned option is the arguments of the thread it
    starts, if any. *)
Definition start_timer (seconds speed : Z) (cb : option callback)
  : M (option (Z * Z)) :=
  self <- get ;;
  if timer_running self then ret None
  else
    assign (set_timer_running true) ;;
    assign (set_timer_stop_flag false) ;;
    assign (set_update_callback cb) ;;
    ret (Some (seconds, speed)).

Definition stop_timer : M unit :=
  self <- get ;;
  if timer_running self then
    assign (set_timer_stop_flag true) ;;
    stop_pump ;;
    assign (set_timer_running false)
  else ret tt.

(** The [try] block of [cleanup] swallows whatever the GPIO calls raise. *)
Definition cleanup : M unit :=
  stop_timer ;;
  stop_pump ;;
  self <- get ;;
  when (negb (simulate self))
    (emit [PWM_stop RPWM; PWM_stop LPWM; GPIO_cleanup]).

End TkPumpController.

(** ** src/app.py, class SensorReader *)

Module SensorReader.

(** [temperature], a float rounded to one decimal, and
    [read_temperature] are not part of this record; they are in
    [Thermometer]. *)
Record state : Type := mk {
  simulate : bool;
  moisture : list Z
}.

(** [__init__(simulate)]; [libs_importable] tells whether the imports of
    the sensor libraries succeed. *)
Definition __init__ (simulate libs_importable : bool) : state :=
  mk (simulate || negb libs_importable) [0; 0; 0; 0].

(** What one call of [read_moisture] gets from outside: the successive
    results of [random.randint(400, 800)], and the [value] of each of the
    four [AnalogIn] channels ([None] when reading it raises). *)
Record backend : Type := {
  randint : nat -> Z;
  channel_value : nat -> option Z
}.

(** The float the literal [6.5536] denotes: the double nearest to
    65536/10000. *)
Definition lit_6_5536 : Py.float :=
  SFdiv Py.prec Py.emax (Py.float_of_int 65536) (Py.float_of_int 10000).

(** [int(ch.value / 6.5536)] *)
Definition scale (value : Z) : Py.result Z :=
  Py.int_of_float (SFdiv Py.prec Py.emax (Py.float_of_int value) lit_6_5536).

(** [[int(ch.value / 6.5536) for ch in self.moisture_channels]], over
    the channel numbers; [None] when any step raises. *)
Fixpoint scale_channels (b : backend) (channels : list nat) : option (list Z) :=
  match channels with
  | [] => Some []
  | ch :: rest =>
      match channel_value b ch with
      | None => None
      | Some v =>
          match scale v with
          | inl _ => None
          | inr raw =>
              match scale_channels b rest with
              | None => None
              | Some raws => Some (raw :: raws)
              end
          end
      end
  end.

Definition read_moisture (b : backend) (s : state) : list Z * state :=
  if simulate s then
    let fresh := map (randint b) [0; 1; 2; 3]%nat in
    (fresh, mk (simulate s) fresh)
  else
    match scale_channels b [0; 1; 2; 3]%nat with
    | Some fresh => (fresh, mk (simulate s) fresh)
    | None => (moisture s, s)
    end.

(** [max(0, min(100, int((dry - raw) / (dry - wet) * 100)))] *)
Definition percent (raw dry wet : Z) : Py.result Z :=
  match Py.int_truediv (dry - raw) (dry - wet) with
  | inl e => inl e
  | inr ratio =>
      match Py.int_of_float (Py.float_mul_int ratio 100) with
      | inl e => inl e
      | inr n => inr (Z.max 0 (Z.min 100 n))
      end
  end.

Definition get_moisture_percent (sensor_index dry wet : Z) (s : state)
  : Py.result Z :=
  match Py.getitem (moisture s) sensor_index with
  | inl e => inl e
  | inr raw => percent raw dry wet
  end.

(** The defaults of [get_moisture_percent]'s keyword arguments. *)
Definition default_dry : Z := 1023.
Definition default_wet : Z := 400.

End SensorReader.

(** ** The controller together with its timer threads *)

Module System.

Import PumpController.

Record t : Type := mk {
  controller : state;
  workers : list worker;
  log : list event
}.

(** What can happen next: the caller invokes a method, or one of the
    live timer threads runs until it sleeps again or ends. *)
Inductive action : Type :=
| Call_start_pump (speed : Z)
| Call_stop_pump
| Call_start_timer (seconds speed : Z) (cb : option callback)
| Call_stop_timer
| Call_cleanup
| Resume (thread : nat).

Definition spawned (w : option worker) : list worker :=
  match w with
  | Some w => [w]
  | None => []
  end.

Definition step (a : action) (sys : t) : t :=
  let after {A} (r : A * state * list event) (ws : list worker) :=
    mk (self_after r) ws (log sys ++ calls r) in
  match a with
  | Call_start_pump speed =>
      after (start_pump speed (controller sys)) (workers sys)
  | Call_stop_pump =>
      after (stop_pump (controller sys)) (workers sys)
  | Call_start_timer seconds speed cb =>
      let r := start_timer seconds speed cb (controller sys) in
      after r (workers sys ++ spawned (snd (returned r)))
  | Call_stop_timer =>
      after (stop_timer (controller sys)) (workers sys)
  | Call_cleanup =>
      after (cleanup (controller sys)) (workers sys)
  | Resume thread =>
      match nth_error (workers sys) thread with
      | None => sys
      | Some w =>
          let r := worker_resume w (controller sys) in
          after r (firstn thread (workers sys) ++ spawned (returned r)
                     ++ skipn (S thread) (workers sys))
      end
  end.

Definition run (schedule : list action) (sys : t) : t :=
  fold_left (fun s a => step a s) schedule sys.

(** A freshly constructed controller, no timer thread yet. *)
Definition boot (simulate gpio_importable : bool) : t :=
  let r := __init__ simulate gpio_importable in
  mk (fst r) [] (snd r).

(** The schedule that lets thread 0 run [n] times in a row. *)
Definition uninterrupted (n : nat) : list action := repeat (Resume 0) n.

End System.

(** ** src/app.py, the temperature half of class SensorReader *)

Module Thermometer.

(** A Python number: [self.temperature] starts as the [int] 0 and holds a
    [float] after the first successful reading. *)
Inductive number : Type :=
| Int (z : Z)
| Float (f : Py.float).

(** The integer nearest to [p / q] for [q > 0], a tie going to the even
    one. *)
Definition round_half_even (p q : Z) : Z :=
  let d := p / q in
  let r := p mod q in
  match 2 * r ?= q with
  | Lt => d
  | Gt => d + 1
  | Eq => if Z.even d then d else d + 1
  end.

(** [round(x, 1)] on a float: the exact value of [x] is rounded to one
    decimal, ties to even, and the result is the float nearest to that
    decimal; zeros, infinities and NaN round to themselves. *)
Definition round1 (x : Py.float) : Py.float :=
  match x with
  | S754_finite s m e =>
      let tenths :=
        match e with
        | Zneg k => round_half_even (10 * Zpos m) (Z.shiftl 1 (Zpos k))
        | _ => 10 * Z.shiftl (Zpos m) e
        end in
      match tenths with
      | Zpos k => SFdiv Py.prec Py.emax (S754_finite s k 0) (S754_finite false 10 0)
      | _ => S754_zero s
      end
  | _ => x
  end.

(** What one call of [read_temperature] gets from outside: the result of
    [random.uniform(-2, 2)], and the reading of the DS18B20 probe ([None]
    when [get_temperature()] raises). *)
Record backend : Type := {
  uniform : Py.float;
  get_temperature : option Py.float
}.

(** [read_temperature()], given the reader's [simulate] flag; the result
    is both returned and kept in [self.temperature]. *)
Definition read_temperature (simulate : bool) (b : backend) (temperature : number)
  : number :=
  if simulate then
    Float (round1 (SFadd Py.prec Py.emax (Py.float_of_int 20) (uniform b)))
  else
    match get_temperature b with
    | Some t => Float (round1 t)
    | None => temperature
    end.

End Thermometer.

(** ** src/app.py, the routes

    The module creates one simulated controller and one simulated reader
    ([pump = PumpController(simulate=True)], [sensors =
    SensorReader(simulate=True)]) and the routes work on these two. A
    request body is taken to be a JSON object whose [speed] and [seconds]
    members, when present, are integers. *)

Module Routes.

Record app : Type := mk {
  pump : System.t;
  sensors : SensorReader.state;
  temperature : Thermometer.number
}.

(** The two objects as the module creates them. *)
Definition init (gpio_importable libs_importable : bool) : app :=
  mk (System.boot true gpio_importable)
     (SensorReader.__init__ true libs_importable)
     (Thermometer.Int 0).

(** The members of [request.json] that the routes read. *)
Record payload : Type := {
  speed : option Z;
  seconds : option Z
}.

(** [data.get(key, default)] *)
Definition get_default (member : option Z) (default : Z) : Z :=
  match member with
  | Some v => v
  | None => default
  end.

(** The dictionary of [/api/status]. *)
Record status : Type := {
  pump_running : bool;
  pump_speed : Z;
  timer_running : bool;
  timer_remaining : Z;
  timer_speed : Z;
  status_temperature : Thermometer.number;
  moisture : list Z
}.

Inductive body : Type :=
| Status (s : status)
| Success (success : bool)
| Invalid_values.

(** A response: the HTTP status code and the JSON body. *)
Definition response : Type := (Z * body)%type.

(** [[sensors.get_moisture_percent(i) for i in range(4)]]: the first call
    that raises ends the comprehension. *)
Fixpoint moisture_percents (indices : list Z) (s : SensorReader.state)
  : Py.result (list Z) :=
  match indices with
  | [] => inr []
  | i :: rest =>
      match SensorReader.get_moisture_percent i SensorReader.default_dry
              SensorReader.default_wet s with
      | inl e => inl e
      | inr p =>
          match moisture_percents rest s with
          | inl e => inl e
          | inr ps => inr (p :: ps)
          end
      end
  end.

(** [GET /api/status]: both sensors are read first, then the dictionary is
    built; an exception ([inl]) leaves the fresh readings in place. *)
Definition get_status (bm : SensorReader.backend) (bt : Thermometer.backend)
           (a : app) : Py.result response * app :=
  let sensors' := snd (SensorReader.read_moisture bm (sensors a)) in
  let temp := Thermometer.read_temperature (SensorReader.simulate sensors') bt
                (temperature a) in
  let a' := mk (pump a) sensors' temp in
  let c := System.controller (pump a) in
  match moisture_percents [0; 1; 2; 3] sensors' with
  | inl e => (inl e, a')
  | inr ps =>
      (inr (200,
            Status {| pump_running := PumpController.is_running c;
                      pump_speed := PumpController.current_speed c;
                      timer_running := PumpController.timer_running c;
                      timer_remaining := PumpController.timer_remaining c;
                      timer_speed := PumpController.timer_speed c;
                      status_temperature := temp;
                      moisture := ps |}),
       a')
  end.

(** [POST /api/pump/start] *)
Definition pump_start (data : payload) (a : app) : response * app :=
  let speed := get_default (speed data) 100 in
  let result := returned (PumpController.start_pump speed (System.controller (pump a))) in
  ((200, Success result),
   mk (System.step (System.Call_start_pump speed) (pump a)) (sensors a) (temperature a)).

(** [POST /api/pump/stop] *)
Definition pump_stop (a : app) : response * app :=
  let result := returned (PumpController.stop_pump (System.controller (pump a))) in
  ((200, Success result),
   mk (System.step System.Call_stop_pump (pump a)) (sensors a) (temperature a)).

(** [POST /api/timer/start]; the timer is started without a callback. *)
Definition timer_start (data : payload) (a : app) : response * app :=
  let seconds := get_default (seconds data) 30 in
  let speed := get_default (speed data) 100 in
  if (seconds <=? 0) || (speed <? 0) || (100 <? speed) then
    ((400, Invalid_values), a)
  else
    let result :=
      fst (returned (PumpController.start_timer seconds speed None
                       (System.controller (pump a)))) in
    ((200, Success result),
     mk (System.step (System.Call_start_timer seconds speed None) (pump a))
        (sensors a) (temperature a)).

(** [POST /api/timer/stop] *)
Definition timer_stop (a : app) : response * app :=
  let result := returned (PumpController.stop_timer (System.controller (pump a))) in
  ((200, Success result),
   mk (System.step System.Call_stop_timer (pump a)) (sensors a) (temperature a)).

(** What happens to the server: a request comes in, or one of the timer
    threads runs until it sleeps again. *)
Inductive happening : Type :=
| Get_status (bm : SensorReader.backend) (bt : Thermometer.backend)
| Post_pump_start (data : payload)
| Post_pump_stop
| Post_timer_start (data : payload)
| Post_timer_stop
| Thread_step (thread : nat).

Definition after (h : happening) (a : app) : app :=
  match h with
  | Get_status bm bt => snd (get_status bm bt a)
  | Post_pump_start data => snd (pump_start data a)
  | Post_pump_stop => snd (pump_stop a)
  | Post_timer_start data => snd (timer_start data a)
  | Post_timer_stop => snd (timer_stop a)
  | Thread_step thread =>
      mk (System.step (System.Resume thread) (pump a)) (sensors a) (temperature a)
  end.

Definition serve (history : list happening) (a : app) : app :=
  fold_left (fun a h => after h a) history a.

End Routes.

(** ** Predicates of the specification on the controller *)

Import PumpController.

(** PumpState invariant: [speed == 0] whenever [running == false], and
    [running == true] implies [0 <= speed <= 100]. *)
Definition pump_invariant (c : state) : Prop :=
  (is_running c = false -> current_speed c = 0) /\
  (is_running c = true -> 0 <= current_speed c <= 100).

(** The pump is stopped and no timer is active. *)
Definition idle (c : state) : Prop :=
  is_running c = false /\ current_speed c = 0 /\ timer_running c = false.

(** Assigning a timer field does not touch the pump fields. *)
Definition same_pump (c c' : state) : Prop :=
  is_running c' = is_running c /\ current_speed c' = current_speed c.

(** The operations of the controller that change its fields, for
    statements about all of them. *)
Inductive operation : Type :=
| Op_start_pump (speed : Z)
| Op_stop_pump
| Op_start_timer (seconds speed : Z) (cb : option callback)
| Op_timer_worker (seconds speed : Z)
| Op_worker_resume (w : worker)
| Op_stop_timer
| Op_cleanup.

Definition perform (op : operation) (c : state) : state :=
  match op with
  | Op_start_pump speed => self_after (start_pump speed c)
  | Op_stop_pump => self_after (stop_pump c)
  | Op_start_timer seconds speed cb => self_after (start_timer seconds speed cb c)
  | Op_timer_worker seconds speed => self_after (_timer_worker seconds speed c)
  | Op_worker_resume w => self_after (worker_resume w c)
  | Op_stop_timer => self_after (stop_timer c)
  | Op_cleanup => self_after (cleanup c)
  end.

(** The calls one tick of the countdown makes. *)
Definition tick_calls (cb : option callback) (remaining : Z) : list event :=
  match cb with
  | Some f => [Callback f remaining; Sleep 1]
  | None => [Sleep 1]
  end.

(** ** The specification's formula for the moisture percentage *)

(** The integer nearest to [p / q] (a half rounds up). *)
Definition round_div (p q : Z) : Z :=
  if 0 <? q then (2 * p + q) / (2 * q) else (2 * (- p) + (- q)) / (2 * (- q)).

(** The integer part of [p / q], toward zero. *)
Definition trunc_div (p q : Z) : Z := Z.quot p q.

Definition clamp (lo hi x : Z) : Z := Z.max lo (Z.min hi x).

(** The specification's words: [clamp(round((dry - raw) / (dry - wet) *
    100), 0, 100)], on exact fractions. *)
Definition spec_moisture_percent (raw dry wet : Z) : Z :=
  clamp 0 100 (round_div ((dry - raw) * 100) (dry - wet)).

(** The same with [int] in place of [round]. *)
Definition trunc_moisture_percent (raw dry wet : Z) : Z :=
  clamp 0 100 (trunc_div ((dry - raw) * 100) (dry - wet)).

(** The raw values the two backends can deliver: [randint(400, 800)], and
    a signed 16 bit channel value divided by 6.5536. *)
Definition raw_values : list Z := Py.countdown 5000 (Z.to_nat 10001).

Definition percent_is_trunc (raw : Z) : bool :=
  match SensorReader.percent raw SensorReader.default_dry SensorReader.default_wet with
  | inr n => n =? trunc_moisture_percent raw SensorReader.default_dry SensorReader.default_wet
  | inl _ => false
  end.

(** ** States used as examples *)

(** A simulated controller started by hand at 30 percent. *)
Definition manual_30 : state :=
  self_after (start_pump 30 (fst (__init__ true true))).

(** A simulated controller one tick into [start_timer(3, 50, cb)]. *)
Definition timer_ticking : System.t :=
  System.run [System.Call_start_timer 3 50 (Some 0%nat); System.Resume 0]
    (System.boot true true).

(** A simulated reader after a [read_moisture] in which every draw of
    [randint] gave [raw]. *)
Definition reader_with (raw : Z) : SensorReader.state :=
  snd (SensorReader.read_moisture
         {| SensorReader.randint := fun _ => raw;
            SensorReader.channel_value := fun _ => None |}
         (SensorReader.__init__ true true)).

(** The Tk controller right after [start_timer(3, 50, cb)]. *)
Definition tk_timer_started : TkPumpController.state :=
  self_after (TkPumpController.start_timer 3 50 (Some 0%nat)
                (fst (TkPumpController.__init__ true true))).

(** ** The motor driver as the logged calls leave it *)

(** The two enable lines and the two PWM duty cycles of the BTS7960. *)
Record pins : Type := {
  r_en : bool;
  l_en : bool;
  rpwm_duty : Z;
  lpwm_duty : Z
}.

(** The effect of one logged call on the driver's inputs.
    [GPIO.cleanup()] turns the channels into inputs, which this record
    does not describe; it is left as it is. *)
Definition drive (h : pins) (e : event) : pins :=
  let set_enable pin high :=
    if pin =? R_EN then
      {| r_en := high; l_en := l_en h;
         rpwm_duty := rpwm_duty h; lpwm_duty := lpwm_duty h |}
    else if pin =? L_EN then
      {| r_en := r_en h; l_en := high;
         rpwm_duty := rpwm_duty h; lpwm_duty := lpwm_duty h |}
    else h in
  let set_duty pin duty :=
    if pin =? RPWM then
      {| r_en := r_en h; l_en := l_en h;
         rpwm_duty := duty; lpwm_duty := lpwm_duty h |}
    else if pin =? LPWM then
      {| r_en := r_en h; l_en := l_en h;
         rpwm_duty := rpwm_duty h; lpwm_duty := duty |}
    else h in
  match e with
  | GPIO_output pin high => set_enable pin high
  | PWM_start pin _ duty => set_duty pin duty
  | ChangeDutyCycle pin duty => set_duty pin duty
  | PWM_stop pin => set_duty pin 0
  | _ => h
  end.

Definition hardware (h0 : pins) (log : list event) : pins :=
  fold_left drive log h0.

(** What the controller's fields say the driver should see. *)
Definition pins_of (c : state) : pins :=
  {| r_en := is_running c; l_en := is_running c;
     rpwm_duty := current_speed c; lpwm_duty := 0 |}.

(** The calls that reach the GPIO library. *)
Definition is_gpio (e : event) : bool :=
  match e with
  | Callback _ _ | Sleep _ => false
  | _ => true
  end.

Definition is_sleep (e : event) : bool :=
  match e with
  | Sleep _ => true
  | _ => false
  end.

(** ** The two controller classes side by side *)

(** The fields of the web controller that the Tk controller also has. *)
Definition forget (c : state) : TkPumpController.state :=
  TkPumpController.mk (simulate c) (is_running c) (current_speed c)
    (timer_running c) (timer_stop_flag c) (update_callback c).

(** A web controller with the given Tk fields. *)
Definition lift (t : TkPumpController.state) : state :=
  mk (TkPumpController.simulate t) (TkPumpController.is_running t)
     (TkPumpController.current_speed t) (TkPumpController.timer_running t)
     (TkPumpController.timer_stop_flag t) 0 0 (TkPumpController.update_callback t).

(** The two methods do the same: the same calls, and the same fields as
    far as the Tk controller has them. *)
Definition agrees {A B : Type} (m : @M state A) (m' : @M TkPumpController.state B)
  : Prop :=
  forall c, forget (self_after (m c)) = self_after (m' (forget c)) /\
            calls (m c) = calls (m' (forget c)).

(** The statements of the Tk [_timer_worker] after its loop. *)
Definition tk_worker_finish : @M TkPumpController.state unit :=
  (TkPumpController.stop_pump ;;
   assign (TkPumpController.set_timer_running false) ;;
   TkPumpController.notify 0)%method.

Definition tk_pump_invariant (t : TkPumpController.state) : Prop :=
  (TkPumpController.is_running t = false -> TkPumpController.current_speed t = 0) /\
  (TkPumpController.is_running t = true ->
   0 <= TkPumpController.current_speed t <= 100).

Definition tk_idle (t : TkPumpController.state) : Prop :=
  TkPumpController.is_running t = false /\
  TkPumpController.current_speed t = 0 /\
  TkPumpController.timer_running t = false.

(** ** The readings of the analog channels *)

(** The magnitudes a signed 16 bit channel value can have. *)
Definition channel_values : list Z := Py.countdown 32768 (Z.to_nat 32769).

(** [value / 6.5536] cut toward zero, on exact fractions. *)
Definition trunc_scale (value : Z) : Z := trunc_div (value * 10000) 65536.

(** [SensorReader.scale] with the float of the literal written out. *)
Definition scale_by_literal (value : Z) : Py.result Z :=
  Py.int_of_float
    (SFdiv Py.prec Py.emax (Py.float_of_int value)
       (S754_finite false 7378697629483821 (-50))).

Definition scale_is_trunc (value : Z) : bool :=
  match scale_by_literal value with
  | inr raw => raw =? trunc_scale value
  | inl _ => false
  end.

(** ** What holds in the web server at any time *)

Definition web_invariant (a : Routes.app) : Prop :=
  let c := System.controller (Routes.pump a) in
  simulate c = true /\
  update_callback c = None /\
  pump_invariant c /\
  0 <= timer_speed c <= 100 /\
  0 <= timer_remaining c /\
  Forall (fun e => e = Sleep 1) (System.log (Routes.pump a)) /\
  SensorReader.simulate (Routes.sensors a) = true /\
  length (SensorReader.moisture (Routes.sensors a)) = 4%nat.

(** ** Proof support *)

Ltac unfold_methods :=
  cbv [perform cleanup stop_timer start_timer worker_resume worker_iteration
       worker_finish notify stop_pump start_pump
       bind ret get assign emit when returned self_after calls
       set_simulate set_is_running set_current_speed set_timer_running
       set_timer_stop_flag set_timer_remaining set_timer_speed
       set_update_callback
       simulate is_running current_speed timer_running timer_stop_flag
       timer_remaining timer_speed update_callback fst snd negb app].

Ltac split_state c :=
  let sim := fresh "sim" in
  let run := fresh "run" in
  let spd := fresh "spd" in
  let trun := fresh "trun" in
  let flag := fresh "flag" in
  let rem := fresh "rem" in
  let tspd := fresh "tspd" in
  let cb := fresh "cb" in
  destruct c as [sim run spd trun flag rem tspd cb].

Ltac close_invariant :=
  auto; intros; try discriminate; try lia;
  try match goal with
      | Hon : ?b = true -> _, H : ?b = true |- _ => specialize (Hon H); lia
      | Hoff : ?b = false -> _, H : ?b = false |- _ => specialize (Hoff H); lia
      end.

Section BindLaws.

Context {Self A B : Type}.
Variables (m : @M Self A) (k : A -> @M Self B) (s : Self).

Lemma returned_bind :
  returned (bind m k s) = returned (k (returned (m s)) (self_after (m s))).
Proof.
  unfold bind, returned, self_after.
  destruct (m s) as [[a s1] l1]; cbn. destruct (k a s1) as [[b s2] l2].
  reflexivity.
Qed.

Lemma self_after_bind :
  self_after (bind m k s) = self_after (k (returned (m s)) (self_after (m s))).
Proof.
  unfold bind, returned, self_after.
  destruct (m s) as [[a s1] l1]; cbn. destruct (k a s1) as [[b s2] l2].
  reflexivity.
Qed.

Lemma calls_bind :
  calls (bind m k s) =
    calls (m s) ++ calls (k (returned (m s)) (self_after (m s))).
Proof.
  unfold bind, returned, self_after, calls.
  destruct (m s) as [[a s1] l1]; cbn. destruct (k a s1) as [[b s2] l2].
  reflexivity.
Qed.

End BindLaws.

(** ** The methods one by one *)

Lemma start_pump_running (speed : Z) (c : state) :
  is_running c = true -> start_pump speed c = (false, c, []).
Proof.
  intros Hrun. unfold start_pump, bind, get. rewrite Hrun. reflexivity.
Qed.

Lemma start_pump_stopped (speed : Z) (c : state) :
  is_running c = false ->
  start_pump speed c =
    (true,
     set_is_running true (set_current_speed (Z.max 0 (Z.min 100 speed)) c),
     if simulate c then []
     else [GPIO_output R_EN true; GPIO_output L_EN true;
           ChangeDutyCycle RPWM (Z.max 0 (Z.min 100 speed));
           ChangeDutyCycle LPWM 0]).
Proof.
  intros Hrun. split_state c. simpl in Hrun. subst.
  destruct sim; reflexivity.
Qed.

Lemma stop_pump_stopped (c : state) :
  is_running c = false -> stop_pump c = (false, c, []).
Proof.
  intros Hrun. unfold stop_pump, bind, get. rewrite Hrun. reflexivity.
Qed.

Lemma stop_pump_running (c : state) :
  is_running c = true ->
  stop_pump c =
    (true, set_current_speed 0 (set_is_running false c),
     if simulate c then []
     else [ChangeDutyCycle RPWM 0; ChangeDutyCycle LPWM 0;
           GPIO_output R_EN false; GPIO_output L_EN false]).
Proof.
  intros Hrun. split_state c. simpl in Hrun. subst.
  destruct sim; reflexivity.
Qed.

Lemma start_pump_invariant (speed : Z) (c : state) :
  pump_invariant c -> pump_invariant (self_after (start_pump speed c)).
Proof.
  intros Hinv. destruct (is_running c) eqn:Hrun.
  - rewrite start_pump_running by assumption. exact Hinv.
  - rewrite start_pump_stopped by assumption.
    split; cbn; [discriminate | lia].
Qed.

Lemma stop_pump_invariant (c : state) :
  pump_invariant c -> pump_invariant (self_after (stop_pump c)).
Proof.
  intros Hinv. destruct (is_running c) eqn:Hrun.
  - rewrite stop_pump_running by assumption.
    split; cbn; [reflexivity | discriminate].
  - rewrite stop_pump_stopped by assumption. exact Hinv.
Qed.

Lemma stop_pump_idle (c : state) :
  pump_invariant c ->
  is_running (self_after (stop_pump c)) = false /\
  current_speed (self_after (stop_pump c)) = 0.
Proof.
  intros [Hoff _]. destruct (is_running c) eqn:Hrun.
  - rewrite stop_pump_running by assumption. split; reflexivity.
  - rewrite stop_pump_stopped by assumption. cbn. auto.
Qed.

Lemma same_pump_invariant (c c' : state) :
  same_pump c c' -> pump_invariant c -> pump_invariant c'.
Proof.
  intros [Hr Hs] Hinv. unfold pump_invariant. rewrite Hr, Hs. exact Hinv.
Qed.

Lemma countdown_loop_break (r : Z) (rs : list Z) (c : state) :
  timer_stop_flag c = true -> countdown_loop (r :: rs) c = (tt, c, []).
Proof.
  intros Hflag. cbn [countdown_loop]. unfold bind at 1, get at 1.
  rewrite Hflag. reflexivity.
Qed.

Lemma countdown_loop_tick (r : Z) (rs : list Z) (c : state) :
  timer_stop_flag c = false ->
  countdown_loop (r :: rs) c =
    let '(u, c', l) := countdown_loop rs (set_timer_remaining r c) in
    (u, c', tick_calls (update_callback c) r ++ l).
Proof.
  intros Hflag. cbn [countdown_loop]. unfold bind at 1, get at 1.
  rewrite Hflag. cbv [bind assign notify get emit ret tick_calls].
  replace (update_callback (set_timer_remaining r c))
    with (update_callback c) by reflexivity.
  destruct (update_callback c);
    destruct (countdown_loop rs (set_timer_remaining r c)) as [[u c'] l];
    reflexivity.
Qed.

Lemma countdown_loop_same_pump (rs : list Z) (c : state) :
  same_pump c (self_after (countdown_loop rs c)).
Proof.
  revert c. induction rs as [|r rs IH]; intros c.
  - split; reflexivity.
  - destruct (timer_stop_flag c) eqn:Hflag.
    + rewrite countdown_loop_break by assumption. split; reflexivity.
    + rewrite countdown_loop_tick by assumption.
      specialize (IH (set_timer_remaining r c)).
      destruct (countdown_loop rs (set_timer_remaining r c)) as [[u c'] l].
      exact IH.
Qed.

Lemma notify_same (remaining : Z) (c : state) :
  self_after (notify remaining c) = c.
Proof.
  cbv [notify bind get emit ret self_after]. destruct (update_callback c); reflexivity.
Qed.

Lemma worker_finish_invariant (c : state) :
  pump_invariant c -> pump_invariant (self_after (worker_finish c)).
Proof.
  intros Hinv. apply stop_pump_invariant in Hinv.
  unfold worker_finish. rewrite !self_after_bind, notify_same. exact Hinv.
Qed.

Lemma worker_iteration_invariant (remaining : Z) (c : state) :
  pump_invariant c -> pump_invariant (self_after (worker_iteration remaining c)).
Proof.
  intros Hinv. pose proof (worker_finish_invariant c Hinv) as Hfin.
  unfold worker_iteration.
  destruct (remaining <=? -1).
  - rewrite self_after_bind. exact Hfin.
  - rewrite self_after_bind. cbn [get returned self_after fst snd].
    destruct (timer_stop_flag c).
    + rewrite self_after_bind. exact Hfin.
    + rewrite !self_after_bind, notify_same. exact Hinv.
Qed.

Lemma worker_resume_invariant (w : worker) (c : state) :
  pump_invariant c -> pump_invariant (self_after (worker_resume w c)).
Proof.
  intros Hinv. destruct w as [seconds speed | next]; cbn [worker_resume].
  - rewrite self_after_bind.
    apply worker_iteration_invariant, start_pump_invariant, Hinv.
  - apply worker_iteration_invariant, Hinv.
Qed.

Lemma timer_worker_invariant (seconds speed : Z) (c : state) :
  pump_invariant c -> pump_invariant (self_after (_timer_worker seconds speed c)).
Proof.
  intros Hinv. unfold _timer_worker. rewrite !self_after_bind.
  apply worker_finish_invariant.
  eapply same_pump_invariant; [apply countdown_loop_same_pump|].
  apply start_pump_invariant, Hinv.
Qed.

Lemma start_timer_same_pump (seconds speed : Z) (cb : option callback) (c : state) :
  same_pump c (self_after (start_timer seconds speed cb c)).
Proof.
  unfold start_timer. rewrite self_after_bind. cbn [get returned self_after fst snd].
  destruct (timer_running c); split; reflexivity.
Qed.

Lemma stop_timer_invariant (c : state) :
  pump_invariant c -> pump_invariant (self_after (stop_timer c)).
Proof.
  intros Hinv. unfold stop_timer. rewrite self_after_bind.
  cbn [get returned self_after fst snd].
  destruct (timer_running c); [|exact Hinv].
  rewrite !self_after_bind.
  exact (stop_pump_invariant (set_timer_stop_flag true c) Hinv).
Qed.

Lemma cleanup_invariant (c : state) :
  pump_invariant c -> pump_invariant (self_after (cleanup c)).
Proof.
  intros Hinv. unfold cleanup. rewrite !self_after_bind.
  apply stop_pump_invariant, stop_timer_invariant, Hinv.
Qed.

Lemma perform_invariant (op : operation) (c : state) :
  pump_invariant c -> pump_invariant (perform op c).
Proof.
  intros Hinv. destruct op; cbn [perform].
  - apply start_pump_invariant, Hinv.
  - apply stop_pump_invariant, Hinv.
  - exact (same_pump_invariant _ _ (start_timer_same_pump _ _ _ c) Hinv).
  - apply timer_worker_invariant, Hinv.
  - apply worker_resume_invariant, Hinv.
  - apply stop_timer_invariant, Hinv.
  - apply cleanup_invariant, Hinv.
Qed.

Lemma init_invariant (simulate gpio_importable : bool) :
  pump_invariant (fst (__init__ simulate gpio_importable)).
Proof.
  destruct simulate, gpio_importable; split; cbn; intros; try lia; discriminate.
Qed.

(** ** The timer's callback sequence *)

Lemma callback_args_app (l1 l2 : list event) :
  callback_args (l1 ++ l2) = callback_args l1 ++ callback_args l2.
Proof.
  induction l1 as [|e l1 IH]; [reflexivity|].
  cbn. destruct (is_callback e); cbn; rewrite IH; reflexivity.
Qed.

Lemma countdown_loop_callbacks (f : callback) (rs : list Z) (c : state) :
  timer_stop_flag c = false -> update_callback c = Some f ->
  callback_args (calls (countdown_loop rs c)) = rs /\
  length (filter (fun e => match e with Sleep _ => true | _ => false end)
            (calls (countdown_loop rs c))) = length rs /\
  update_callback (self_after (countdown_loop rs c)) = Some f.
Proof.
  revert c. induction rs as [|r rs IH]; intros c Hflag Hcb.
  - cbn. auto.
  - rewrite countdown_loop_tick by assumption.
    destruct (IH (set_timer_remaining r c) Hflag Hcb) as (IHa & IHs & IHc).
    destruct (countdown_loop rs (set_timer_remaining r c)) as [[u c'] l].
    rewrite Hcb. cbn in *. rewrite IHa, IHs. auto.
Qed.

Lemma start_pump_callbacks (speed : Z) (c : state) :
  callback_args (calls (start_pump speed c)) = [] /\
  timer_stop_flag (self_after (start_pump speed c)) = timer_stop_flag c /\
  update_callback (self_after (start_pump speed c)) = update_callback c.
Proof.
  split_state c. destruct run, sim; cbn; auto.
Qed.

Lemma worker_finish_callbacks (f : callback) (c : state) :
  update_callback c = Some f ->
  callback_args (calls (worker_finish c)) = [0].
Proof.
  intros Hcb. split_state c. cbn in Hcb. subst cb.
  destruct run, sim; reflexivity.
Qed.

(** Left alone, the worker of a timer of [seconds] seconds calls the
    callback with [seconds], ..., 1, 0 and then with 0 again. *)
Lemma timer_worker_callbacks (f : callback) (seconds speed : Z) (c : state) :
  timer_stop_flag c = false -> update_callback c = Some f ->
  callback_args (calls (_timer_worker seconds speed c)) =
    Py.range_down seconds (-1) ++ [0].
Proof.
  intros Hflag Hcb. unfold _timer_worker.
  destruct (start_pump_callbacks speed c) as (Hs & Hf1 & Hcb1).
  rewrite Hflag in Hf1. rewrite Hcb in Hcb1.
  rewrite calls_bind, callback_args_app, Hs. cbn [app].
  destruct (countdown_loop_callbacks f (Py.range_down seconds (-1)) _ Hf1 Hcb1)
    as (Ha & _ & Hcb2).
  rewrite calls_bind, callback_args_app, Ha. f_equal.
  apply (worker_finish_callbacks f), Hcb2.
Qed.

(** So the callback gets 0 twice whenever the timer runs to its end. *)
Lemma timer_worker_zero_twice (f : callback) (seconds speed : Z) (c : state) :
  0 < seconds ->
  timer_stop_flag c = false -> update_callback c = Some f ->
  count_occ Z.eq_dec (callback_args (calls (_timer_worker seconds speed c))) 0
  = 2%nat.
Proof.
  intros Hsec Hflag Hcb. rewrite (timer_worker_callbacks f) by assumption.
  rewrite count_occ_app. cbn [count_occ]. destruct (Z.eq_dec 0 0); [|congruence].
  assert (Hone : forall n start, start = Z.of_nat n - 1 ->
            count_occ Z.eq_dec (Py.countdown start n) 0 = if Nat.eqb n 0 then 0%nat else 1%nat).
  { induction n as [|n IH]; intros start Hstart; [reflexivity|].
    cbn [Py.countdown count_occ Nat.eqb].
    rewrite (IH (start - 1)) by lia.
    destruct (Z.eq_dec start 0), n; cbn; try reflexivity; lia. }
  unfold Py.range_down. rewrite Hone by lia.
  destruct (Z.to_nat (seconds - -1)) eqn:Hn; [lia | reflexivity].
Qed.

(** ** The claims about PumpController *)

(** C1 (as stated, fails): with the pump running at 30, [start_timer(3, 50,
    cb)] starts its worker, and after the worker's [start_pump(50)] and first
    tick the pump still runs at 30, not at 50. *)
Lemma start_timer_override_counterexample :
  let r := start_timer 3 50 (Some 0%nat) manual_30 in
  let c' := self_after (worker_resume (Spawned 3 50) (self_after r)) in
  is_running manual_30 = true /\ current_speed manual_30 = 30 /\
  returned r = (true, Some (Spawned 3 50)) /\
  is_running c' = true /\ current_speed c' = 30 /\ current_speed c' <> 50.
Proof.
  cbv. repeat split; discriminate.
Qed.

(** C1 (amended): when no timer is active and [start_timer(seconds, s2, cb)]
    is called with [seconds > 0], then after the worker's [start_pump(s2)]
    and first tick the pump is running and [timer_speed] is [s2]; the speed
    is the one the pump already ran at if it was running (the start is
    refused), and [s2] clamped into 0..100 only if the pump was stopped. *)
Theorem start_timer_speed (c : state) (seconds s2 : Z) (cb : option callback) :
  timer_running c = false -> 0 < seconds ->
  let r := start_timer seconds s2 cb c in
  let r' := worker_resume (Spawned seconds s2) (self_after r) in
  returned r = (true, Some (Spawned seconds s2)) /\
  returned r' = Some (Sleeping (seconds - 1)) /\
  is_running (self_after r') = true /\
  timer_speed (self_after r') = s2 /\
  current_speed (self_after r') =
    if is_running c then current_speed c else Z.max 0 (Z.min 100 s2).
Proof.
  intros Htimer Hsec. split_state c. cbn in Htimer. subst trun.
  assert (Hle : (seconds <=? -1) = false) by (apply Z.leb_gt; lia).
  destruct run, sim; cbv [start_timer worker_resume]; unfold_methods;
    rewrite Hle; destruct cb; cbn; auto.
Qed.

Lemma start_timer_speed_witness :
  current_speed
    (self_after (worker_resume (Spawned 3 50)
                   (self_after (start_timer 3 50 (Some 0%nat) manual_30)))) = 30.
Proof.
  exact (proj2 (proj2 (proj2 (proj2
    (start_timer_speed manual_30 3 50 (Some 0%nat) eq_refl eq_refl))))).
Defined.

(** C2 (the code differs): on a fresh controller, [start_timer(3, 50, cb)]
    and its worker left to run to the end call [cb] with 3, 2, 1, 0, 0:
    the callback receives 0 twice, once from the last round of the loop
    and once after it, and the thread sleeps four times, not three. The
    worker of src/pump_control.py makes the same callback sequence. *)
Theorem timer_3_50_callback_sequence :
  let sys := System.run
               (System.Call_start_timer 3 50 (Some 0%nat) :: System.uninterrupted 5)
               (System.boot true true) in
  System.workers sys = [] /\
  callback_args (System.log sys) = [3; 2; 1; 0; 0] /\
  count_occ Z.eq_dec (callback_args (System.log sys)) 0 = 2%nat /\
  System.log sys =
    calls (_timer_worker 3 50
             (self_after (start_timer 3 50 (Some 0%nat) (fst (__init__ true true))))) /\
  count_occ Z.eq_dec
    (map (fun e => match e with Sleep n => n | _ => 0 end) (System.log sys)) 1 = 4%nat /\
  callback_args (calls (TkPumpController._timer_worker 3 50 tk_timer_started))
  = [3; 2; 1; 0; 0].
Proof.
  vm_compute. repeat split; reflexivity.
Qed.

(** C4: the PumpState invariant holds in the initial state and every
    operation of the controller preserves it, whatever speed is passed. *)
Theorem pump_invariant_preserved :
  (forall simulate gpio_importable,
      pump_invariant (fst (__init__ simulate gpio_importable))) /\
  (forall op c, pump_invariant c -> pump_invariant (perform op c)).
Proof.
  split.
  - exact init_invariant.
  - intros op c. apply perform_invariant.
Qed.

Lemma pump_invariant_preserved_witness :
  pump_invariant (perform (Op_start_pump 250) (fst (__init__ true true))) /\
  pump_invariant (perform (Op_timer_worker 3 (-7)) manual_30).
Proof.
  split.
  - apply (proj2 pump_invariant_preserved).
    split; cbn; intros; [reflexivity | discriminate].
  - apply (proj2 pump_invariant_preserved).
    split; cbn; intros; [discriminate | lia].
Defined.

(** C5: on a running controller [start_pump] returns [False] (the failure
    the specification calls AlreadyRunning), and leaves every field as it
    was, without any hardware call. *)
Theorem start_pump_already_running (c : state) (speed : Z) :
  is_running c = true ->
  returned (start_pump speed c) = false /\
  self_after (start_pump speed c) = c /\
  calls (start_pump speed c) = [].
Proof.
  intros Hrun. rewrite start_pump_running by assumption. auto.
Qed.

Lemma start_pump_already_running_witness :
  returned (start_pump 80 manual_30) = false /\
  self_after (start_pump 80 manual_30) = manual_30 /\
  calls (start_pump 80 manual_30) = [].
Proof.
  apply start_pump_already_running. reflexivity.
Defined.

(** C6: with a timer active, [stop_timer()] returns with the pump stopped
    at speed 0 and the timer inactive, while the timer's threads are still
    there, not yet run to their end. *)
Theorem stop_timer_synchronous (sys : System.t) :
  pump_invariant (System.controller sys) ->
  timer_running (System.controller sys) = true ->
  let sys' := System.step System.Call_stop_timer sys in
  returned (stop_timer (System.controller sys)) = true /\
  idle (System.controller sys') /\
  timer_stop_flag (System.controller sys') = true /\
  System.workers sys' = System.workers sys.
Proof.
  intros Hinv Htimer. destruct sys as [c ws l]. cbn in *.
  destruct Hinv as [Hoff Hon]. split_state c. cbn in *. subst trun.
  unfold idle. destruct run, sim; cbn; auto.
  - rewrite Hoff by reflexivity. auto.
  - rewrite Hoff by reflexivity. auto.
Qed.

Lemma stop_timer_synchronous_witness :
  idle (System.controller (System.step System.Call_stop_timer timer_ticking)) /\
  System.workers (System.step System.Call_stop_timer timer_ticking) = [Sleeping 2].
Proof.
  assert (Hinv : pump_invariant (System.controller timer_ticking)).
  { split; cbn; intros; [discriminate | lia]. }
  pose proof (stop_timer_synchronous timer_ticking Hinv eq_refl) as H.
  split; [exact (proj1 (proj2 H)) | exact (proj2 (proj2 (proj2 H)))].
Defined.

(** C9: [cleanup()] cannot fail and is idempotent: from a state that
    satisfies the invariant, after a first and after a second [cleanup()]
    the pump is stopped at speed 0 and no timer is active, the second call
    changes no field and makes no hardware call. *)
Theorem cleanup_idempotent (c : state) :
  pump_invariant c ->
  let r1 := cleanup c in
  let r2 := cleanup (self_after r1) in
  idle (self_after r1) /\ idle (self_after r2) /\
  self_after r2 = self_after r1 /\ calls r2 = [].
Proof.
  intros [Hoff Hon]. split_state c. cbn in *. unfold idle.
  destruct run, trun, sim; cbn; try rewrite Hoff by reflexivity; auto.
Qed.

Lemma cleanup_idempotent_witness :
  idle (self_after (cleanup (System.controller timer_ticking))) /\
  self_after (cleanup (self_after (cleanup (System.controller timer_ticking)))) =
    self_after (cleanup (System.controller timer_ticking)).
Proof.
  assert (Hinv : pump_invariant (System.controller timer_ticking)).
  { split; cbn; intros; [discriminate | lia]. }
  pose proof (cleanup_idempotent (System.controller timer_ticking) Hinv) as H.
  split; [exact (proj1 H) | exact (proj1 (proj2 (proj2 H)))].
Defined.

(** ** The claims about SensorReader *)

Lemma moisture_length_init (simulate libs_importable : bool) :
  length (SensorReader.moisture (SensorReader.__init__ simulate libs_importable))
  = 4%nat.
Proof. reflexivity. Qed.

Lemma scale_channels_length (b : SensorReader.backend) (channels : list nat)
      (raws : list Z) :
  SensorReader.scale_channels b channels = Some raws ->
  length raws = length channels.
Proof.
  revert raws. induction channels as [|ch rest IH]; intros raws H; cbn in H.
  - injection H as <-. reflexivity.
  - destruct (SensorReader.channel_value b ch); [|discriminate].
    destruct (SensorReader.scale z); [discriminate|].
    destruct (SensorReader.scale_channels b rest); [|discriminate].
    injection H as <-. cbn. f_equal. apply IH. reflexivity.
Qed.

(** The cached reading always has four entries. *)
Lemma moisture_length_read (b : SensorReader.backend) (s : SensorReader.state) :
  length (SensorReader.moisture s) = 4%nat ->
  length (SensorReader.moisture (snd (SensorReader.read_moisture b s))) = 4%nat /\
  fst (SensorReader.read_moisture b s) =
    SensorReader.moisture (snd (SensorReader.read_moisture b s)).
Proof.
  intros Hlen. unfold SensorReader.read_moisture.
  destruct (SensorReader.simulate s); [split; reflexivity|].
  destruct (SensorReader.scale_channels b [0; 1; 2; 3]%nat) eqn:Hsc.
  - apply scale_channels_length in Hsc. cbn in *. auto.
  - cbn. auto.
Qed.

(** C3 (as stated, fails): with the default bounds and a raw value of 700
    the code returns 51, where the specification's formula gives 52; and
    with dry 1000, wet 0 and raw 710 it returns 28, where the formula
    gives 29 (the float 0.29 * 100 is 28.999999999999996). *)
Lemma moisture_percent_round_counterexample :
  SensorReader.moisture (reader_with 700) = [700; 700; 700; 700] /\
  SensorReader.get_moisture_percent 0 1023 400 (reader_with 700) = inr 51 /\
  spec_moisture_percent 700 1023 400 = 52 /\
  SensorReader.get_moisture_percent 0 1000 0 (reader_with 710) = inr 28 /\
  spec_moisture_percent 710 1000 0 = 29.
Proof.
  vm_compute. repeat split; reflexivity.
Qed.

Lemma percent_is_trunc_all : forallb percent_is_trunc raw_values = true.
Proof. vm_compute. reflexivity. Qed.

Lemma raw_values_range (raw : Z) :
  -5000 <= raw <= 5000 -> In raw raw_values.
Proof.
  unfold raw_values.
  assert (H : forall n start, start - Z.of_nat n < raw <= start ->
                              In raw (Py.countdown start n)).
  { induction n as [|n IH]; intros start Hr; [lia|].
    cbn [Py.countdown]. destruct (Z.eq_dec start raw) as [->|Hne].
    - left. reflexivity.
    - right. apply IH. lia. }
  intros Hr. apply H. lia.
Qed.

(** C3 (amended): with the default bounds and a raw value between -5000
    and 5000, which covers what both backends deliver, the code returns the
    quotient (dry - raw) * 100 / (dry - wet) cut toward zero, as [int]
    does, and clamped into 0..100; raw 1023 gives 0, raw 400 gives 100 and
    raw 700 gives 51. *)
Theorem moisture_percent_truncates (s : SensorReader.state) (i raw : Z) :
  Py.getitem (SensorReader.moisture s) i = inr raw ->
  -5000 <= raw <= 5000 ->
  SensorReader.get_moisture_percent i SensorReader.default_dry
    SensorReader.default_wet s
  = inr (trunc_moisture_percent raw SensorReader.default_dry SensorReader.default_wet)
  /\ trunc_moisture_percent 1023 SensorReader.default_dry SensorReader.default_wet = 0
  /\ trunc_moisture_percent 400 SensorReader.default_dry SensorReader.default_wet = 100
  /\ trunc_moisture_percent 700 SensorReader.default_dry SensorReader.default_wet = 51.
Proof.
  intros Hraw Hrange. split; [|vm_compute; auto].
  unfold SensorReader.get_moisture_percent. rewrite Hraw.
  pose proof percent_is_trunc_all as Hall.
  rewrite forallb_forall in Hall.
  specialize (Hall raw (raw_values_range raw Hrange)).
  unfold percent_is_trunc in Hall.
  destruct (SensorReader.percent raw SensorReader.default_dry SensorReader.default_wet)
    as [e|n]; [discriminate|].
  apply Z.eqb_eq in Hall. subst n. reflexivity.
Qed.

Lemma moisture_percent_truncates_witness :
  SensorReader.get_moisture_percent 2 SensorReader.default_dry
    SensorReader.default_wet (reader_with 700) = inr 51.
Proof.
  refine (proj1 (moisture_percent_truncates (reader_with 700) 2 700 eq_refl _)).
  lia.
Defined.

(** Away from the default bounds the binary64 product can fall just below
    an exact integer quotient: 29/100*100 is 28.999999999999996. *)
Lemma percent_below_exact_quotient :
  SensorReader.percent 710 1000 0 = inr 28 /\
  trunc_moisture_percent 710 1000 0 = 29.
Proof. vm_compute. auto. Qed.

(** C7: when [dry == wet] and the channel index is one the list accepts,
    the call fails, and with no other error than the division by zero (the
    specification's InvalidCalibration). *)
Theorem moisture_percent_zero_span (s : SensorReader.state) (i raw dry wet : Z) :
  Py.getitem (SensorReader.moisture s) i = inr raw ->
  dry = wet ->
  SensorReader.get_moisture_percent i dry wet s = inl Py.ZeroDivisionError.
Proof.
  intros Hraw ->. unfold SensorReader.get_moisture_percent. rewrite Hraw.
  unfold SensorReader.percent, Py.int_truediv.
  rewrite Z.sub_diag. reflexivity.
Qed.

Lemma moisture_percent_zero_span_witness :
  SensorReader.get_moisture_percent 1 512 512 (reader_with 700)
  = inl Py.ZeroDivisionError.
Proof.
  exact (moisture_percent_zero_span (reader_with 700) 1 700 512 512 eq_refl eq_refl).
Defined.

(** C8 (as stated, fails): index -1 is outside 0..3, and on a fresh reader
    the call returns 100 for it instead of failing. *)
Lemma moisture_percent_negative_index_counterexample :
  SensorReader.get_moisture_percent (-1) SensorReader.default_dry
    SensorReader.default_wet (SensorReader.__init__ true true) = inr 100.
Proof. vm_compute. reflexivity. Qed.

Lemma getitem_range {A : Type} (xs : list A) (i : Z) :
  let n := Z.of_nat (length xs) in
  (i < - n \/ n <= i -> Py.getitem xs i = inl Py.IndexError) /\
  (- n <= i < 0 -> Py.getitem xs i = Py.getitem xs (i + n)) /\
  (0 <= i < n -> exists x, Py.getitem xs i = inr x).
Proof.
  cbn zeta. set (n := Z.of_nat (length xs)). unfold Py.getitem. fold n.
  repeat split.
  - intros Hout. destruct (i <? 0) eqn:Hneg.
    + apply Z.ltb_lt in Hneg.
      assert (H : (i + n <? 0) = true) by (apply Z.ltb_lt; lia).
      rewrite H. reflexivity.
    + apply Z.ltb_ge in Hneg.
      assert (H : (n <=? i) = true) by (apply Z.leb_le; lia).
      rewrite H, orb_true_r. reflexivity.
  - intros Hin.
    assert (H1 : (i <? 0) = true) by (apply Z.ltb_lt; lia).
    assert (H2 : (i + n <? 0) = false) by (apply Z.ltb_ge; lia).
    rewrite H1, H2. cbv iota. rewrite H2. reflexivity.
  - intros Hin.
    assert (H1 : (i <? 0) = false) by (apply Z.ltb_ge; lia).
    assert (H2 : (n <=? i) = false) by (apply Z.leb_gt; lia).
    rewrite H1, H1, H2. cbn [orb].
    destruct (nth_error xs (Z.to_nat i)) eqn:Hnth; [eauto|].
    apply nth_error_None in Hnth. lia.
Qed.

(** C8 (amended): on a reader with its four cached values, an index of 4
    or more, or below -4, fails with [IndexError] (the specification's
    OutOfRange); an index from -4 to -1 does not fail on the index: it reads
    the channel [index + 4]. *)
Theorem moisture_percent_index (s : SensorReader.state) (i dry wet : Z) :
  length (SensorReader.moisture s) = 4%nat ->
  (i < -4 \/ 4 <= i ->
   SensorReader.get_moisture_percent i dry wet s = inl Py.IndexError) /\
  (-4 <= i < 0 ->
   SensorReader.get_moisture_percent i dry wet s =
     SensorReader.get_moisture_percent (i + 4) dry wet s /\
   exists raw, Py.getitem (SensorReader.moisture s) i = inr raw).
Proof.
  intros Hlen. unfold SensorReader.get_moisture_percent.
  destruct (getitem_range (SensorReader.moisture s) i) as (Hout & Hneg & _).
  destruct (getitem_range (SensorReader.moisture s) (i + 4)) as (_ & _ & Hin).
  rewrite Hlen in *. cbn in Hout, Hneg, Hin. split.
  - intros Hi. rewrite Hout by lia. reflexivity.
  - intros Hi. rewrite Hneg by lia. split; [reflexivity|].
    apply Hin. lia.
Qed.

Lemma moisture_percent_index_witness :
  SensorReader.get_moisture_percent 4 1023 400 (SensorReader.__init__ true true)
  = inl Py.IndexError /\
  SensorReader.get_moisture_percent (-5) 1023 400 (SensorReader.__init__ true true)
  = inl Py.IndexError.
Proof.
  split.
  - apply (proj1 (moisture_percent_index (SensorReader.__init__ true true)
                    4 1023 400 eq_refl)). lia.
  - apply (proj1 (moisture_percent_index (SensorReader.__init__ true true)
                    (-5) 1023 400 eq_refl)). lia.
Defined.

(** C10: on a fresh reader, before any [read_moisture], every channel
    0..3 reports 100 percent with the default bounds. *)
Theorem fresh_reader_percent (simulate libs_importable : bool) (i : Z) :
  0 <= i <= 3 ->
  SensorReader.get_moisture_percent i SensorReader.default_dry
    SensorReader.default_wet (SensorReader.__init__ simulate libs_importable)
  = inr 100.
Proof.
  intros Hi.
  assert (Hcases : i = 0 \/ i = 1 \/ i = 2 \/ i = 3) by lia.
  destruct Hcases as [-> | [-> | [-> | ->]]]; vm_compute; reflexivity.
Qed.

Lemma fresh_reader_percent_witness :
  SensorReader.get_moisture_percent 3 SensorReader.default_dry
    SensorReader.default_wet (SensorReader.__init__ false true) = inr 100.
Proof.
  apply fresh_reader_percent. lia.
Defined.

(** ** The controller with its threads *)

Lemma step_invariant (a : System.action) (sys : System.t) :
  pump_invariant (System.controller sys) ->
  pump_invariant (System.controller (System.step a sys)).
Proof.
  intros Hinv. destruct a; cbn [System.step System.controller].
  - apply (perform_invariant (Op_start_pump speed)), Hinv.
  - apply (perform_invariant Op_stop_pump), Hinv.
  - apply (perform_invariant (Op_start_timer seconds speed cb)), Hinv.
  - apply (perform_invariant Op_stop_timer), Hinv.
  - apply (perform_invariant Op_cleanup), Hinv.
  - destruct (nth_error (System.workers sys) thread) as [w|]; [|exact Hinv].
    apply (perform_invariant (Op_worker_resume w)), Hinv.
Qed.

(** Whatever the caller does and however the timer threads are scheduled,
    the invariant holds between the steps. *)
Lemma reachable_invariant (schedule : list System.action)
      (simulate gpio_importable : bool) :
  pump_invariant
    (System.controller (System.run schedule (System.boot simulate gpio_importable))).
Proof.
  unfold System.run.
  assert (H : forall sys, pump_invariant (System.controller sys) ->
            pump_invariant
              (System.controller (fold_left (fun s a => System.step a s) schedule sys))).
  { induction schedule as [|a schedule IH]; intros sys Hinv; [exact Hinv|].
    cbn [fold_left]. apply IH, step_invariant, Hinv. }
  apply H, init_invariant.
Qed.

Lemma worker_iteration_done (r : Z) (c : state) :
  r <= -1 \/ timer_stop_flag c = true ->
  worker_iteration r c =
    (None, self_after (worker_finish c), calls (worker_finish c)).
Proof.
  intros Hdone. unfold worker_iteration.
  assert (Hfin : (worker_finish ;; ret None)%method c =
                 (@None worker, self_after (worker_finish c), calls (worker_finish c))).
  { unfold bind at 1, ret. destruct (worker_finish c) as [[u c1] l1].
    cbn. rewrite app_nil_r. reflexivity. }
  destruct (r <=? -1) eqn:Hr; [exact Hfin|].
  apply Z.leb_gt in Hr. destruct Hdone as [Hle | Hflag]; [lia|].
  unfold bind at 1, get at 1. rewrite Hflag, Hfin. reflexivity.
Qed.

Lemma worker_iteration_tick (r : Z) (c : state) :
  0 <= r -> timer_stop_flag c = false ->
  worker_iteration r c =
    (Some (Sleeping (r - 1)), set_timer_remaining r c,
     tick_calls (update_callback c) r).
Proof.
  intros Hr Hflag. unfold worker_iteration.
  assert (Hle : (r <=? -1) = false) by (apply Z.leb_gt; lia).
  rewrite Hle. unfold bind at 1, get at 1. rewrite Hflag.
  cbv [bind assign notify get emit ret tick_calls].
  replace (update_callback (set_timer_remaining r c))
    with (update_callback c) by reflexivity.
  destruct (update_callback c); reflexivity.
Qed.

Lemma step_resume_single (w : worker) (c : state) (l : list event) :
  System.step (System.Resume 0) (System.mk c [w] l) =
    System.mk (self_after (worker_resume w c))
      (System.spawned (returned (worker_resume w c)))
      (l ++ calls (worker_resume w c)).
Proof.
  cbn. rewrite app_nil_r. reflexivity.
Qed.

Lemma run_no_workers (n : nat) (c : state) (l : list event) :
  System.run (System.uninterrupted n) (System.mk c [] l) = System.mk c [] l.
Proof.
  induction n as [|n IH]; [reflexivity|]. exact IH.
Qed.

(** A sleeping worker that is left alone goes through the rest of the
    loop of [_timer_worker] and the statements after it. *)
Lemma sleeping_worker_runs_loop (n : nat) :
  forall (r : Z) (c : state) (l : list event),
    r = Z.of_nat n - 1 ->
    let res := (countdown_loop (Py.countdown r n) ;; worker_finish)%method c in
    System.run (System.uninterrupted (S n)) (System.mk c [Sleeping r] l) =
      System.mk (self_after res) [] (l ++ calls res).
Proof.
  induction n as [|n IH]; intros r c l Hr res; subst res.
  - cbn [System.uninterrupted repeat System.run fold_left].
    rewrite step_resume_single. cbn [worker_resume].
    rewrite worker_iteration_done by lia.
    rewrite self_after_bind, calls_bind. reflexivity.
  - change (System.run (System.uninterrupted (S (S n))) (System.mk c [Sleeping r] l))
      with (System.run (System.uninterrupted (S n))
              (System.step (System.Resume 0) (System.mk c [Sleeping r] l))).
    rewrite step_resume_single. cbn [worker_resume Py.countdown].
    rewrite self_after_bind, calls_bind.
    destruct (timer_stop_flag c) eqn:Hflag.
    + rewrite worker_iteration_done by auto.
      rewrite countdown_loop_break by assumption.
      cbn [returned self_after calls fst snd System.spawned app].
      apply run_no_workers.
    + rewrite worker_iteration_tick by (assumption || lia).
      rewrite countdown_loop_tick by assumption.
      cbn [returned self_after calls fst snd System.spawned].
      rewrite (IH (r - 1)) by lia.
      rewrite self_after_bind, calls_bind.
      destruct (countdown_loop (Py.countdown (r - 1) n) (set_timer_remaining r c))
        as [[u c'] l'].
      cbn [returned self_after calls fst snd].
      rewrite <- !app_assoc. reflexivity.
Qed.

(** The thread that [start_timer] spawns, left alone for [seconds + 2]
    steps, does what [_timer_worker(seconds, speed)] does, and ends. *)
Lemma spawned_worker_runs_timer_worker (seconds speed : Z) (c : state)
      (l : list event) :
  -1 <= seconds ->
  let res := _timer_worker seconds speed c in
  System.run (System.uninterrupted (S (Z.to_nat (seconds + 1))))
    (System.mk c [Spawned seconds speed] l) =
    System.mk (self_after res) [] (l ++ calls res).
Proof.
  intros Hsec res. subst res.
  pose proof (sleeping_worker_runs_loop (Z.to_nat (seconds + 1)) seconds
                (self_after (start_pump speed c))
                (l ++ calls (start_pump speed c))) as Hloop.
  cbn zeta in Hloop. specialize (Hloop ltac:(lia)).
  unfold _timer_worker, Py.range_down.
  replace (seconds - -1) with (seconds + 1) by lia.
  rewrite self_after_bind, calls_bind, app_assoc, <- Hloop.
  set (n := Z.to_nat (seconds + 1)).
  change (System.run (System.uninterrupted (S n)) ?sys)
    with (System.run (System.uninterrupted n) (System.step (System.Resume 0) sys)).
  rewrite !step_resume_single. cbn [worker_resume].
  rewrite returned_bind, self_after_bind, calls_bind, app_assoc. reflexivity.
Qed.

(** After [stop_timer()], a sleeping worker that wakes up while the stop
    flag is still set ends at once: the controller stays idle and the
    callback receives its single 0. *)
Lemma worker_unwinds_after_stop (r : Z) (c : state) (f : callback) :
  idle c -> timer_stop_flag c = true -> update_callback c = Some f ->
  returned (worker_resume (Sleeping r) c) = None /\
  idle (self_after (worker_resume (Sleeping r) c)) /\
  calls (worker_resume (Sleeping r) c) = [Callback f 0].
Proof.
  intros (Hrun & Hspd & Htimer) Hflag Hcb. cbn [worker_resume].
  rewrite worker_iteration_done by auto.
  split_state c. cbn in *. subst. unfold idle. cbn. auto.
Qed.

(** ** More about the web controller *)

(** X1: starting a stopped pump and stopping it again gives back the
    state it started from; both calls report success. *)
Theorem start_stop_round_trip (c : state) (speed : Z) :
  is_running c = false -> current_speed c = 0 ->
  let r1 := start_pump speed c in
  let r2 := stop_pump (self_after r1) in
  returned r1 = true /\ returned r2 = true /\ self_after r2 = c.
Proof.
  intros Hrun Hspd. split_state c. cbn in Hrun, Hspd. subst.
  destruct sim; cbn; auto.
Qed.

Lemma start_stop_round_trip_witness :
  self_after (stop_pump (self_after (start_pump 250 (fst (__init__ false true)))))
  = fst (__init__ false true).
Proof.
  exact (proj2 (proj2
    (start_stop_round_trip (fst (__init__ false true)) 250 eq_refl eq_refl))).
Defined.



Lemma hardware_app (h0 : pins) (l1 l2 : list event) :
  hardware h0 (l1 ++ l2) = hardware (hardware h0 l1) l2.
Proof. apply fold_left_app. Qed.

Lemma method_tracks (a : System.action) (sys : System.t) (h0 : pins) :
  simulate (System.controller sys) = false ->
  hardware h0 (System.log sys) = pins_of (System.controller sys) ->
  simulate (System.controller (System.step a sys)) = false /\
  hardware h0 (System.log (System.step a sys))
  = pins_of (System.controller (System.step a sys)).
Proof.
  intros Hsim Hhw. destruct sys as [c ws l]. cbn in Hsim, Hhw.
  split_state c. cbn in Hsim. subst sim.
  destruct a; cbn [System.step System.controller System.log System.workers];
    try (destruct (nth_error ws thread) as [[seconds speed | next]|];
         cbn [System.controller System.log]);
    rewrite ?hardware_app, ?Hhw; try (split; [reflexivity | exact Hhw]).
  - destruct run; cbn; auto.
  - destruct run; cbn; auto.
  - destruct trun; cbn; auto.
  - destruct trun, run; cbn; auto.
  - destruct trun, run; cbn; auto.
  - unfold_methods. destruct run, (seconds <=? -1), flag, cb; cbn; auto.
  - unfold_methods. destruct run, (next <=? -1), flag, cb; cbn; auto.
Qed.

(** X3: on real hardware, whatever the caller does and however the timer
    threads are scheduled, the driver sees what the fields say: both enable
    lines are high exactly when [is_running], the RPWM duty cycle is
    [current_speed], the LPWM duty cycle is 0. *)
Theorem hardware_tracks_state (h0 : pins) (schedule : list System.action) :
  let sys := System.run schedule (System.boot false true) in
  hardware h0 (System.log sys) = pins_of (System.controller sys).
Proof.
  cbn zeta. unfold System.run.
  assert (H : forall sys,
             simulate (System.controller sys) = false ->
             hardware h0 (System.log sys) = pins_of (System.controller sys) ->
             hardware h0 (System.log (fold_left (fun s a => System.step a s) schedule sys))
             = pins_of (System.controller
                          (fold_left (fun s a => System.step a s) schedule sys))).
  { induction schedule as [|a schedule IH]; intros sys Hsim Hhw; [exact Hhw|].
    cbn [fold_left]. destruct (method_tracks a sys h0 Hsim Hhw) as [Hsim' Hhw'].
    apply IH; assumption. }
  apply H; [reflexivity|]. destruct h0. reflexivity.
Qed.

Lemma step_quiet (a : System.action) (sys : System.t) :
  simulate (System.controller sys) = true ->
  simulate (System.controller (System.step a sys)) = true /\
  existsb is_gpio (System.log (System.step a sys))
  = existsb is_gpio (System.log sys).
Proof.
  intros Hsim. destruct sys as [c ws l]. cbn in Hsim.
  split_state c. cbn in Hsim. subst sim.
  destruct a; cbn [System.step System.controller System.log System.workers];
    try (destruct (nth_error ws thread) as [[seconds speed | next]|];
         cbn [System.controller System.log]);
    rewrite ?existsb_app; try (split; reflexivity).
  - destruct run; cbn; rewrite ?orb_false_r; auto.
  - destruct run; cbn; rewrite ?orb_false_r; auto.
  - destruct trun; cbn; rewrite ?orb_false_r; auto.
  - destruct trun, run; cbn; rewrite ?orb_false_r; auto.
  - destruct trun, run; cbn; rewrite ?orb_false_r; auto.
  - unfold_methods. destruct run, (seconds <=? -1), flag, cb; cbn;
      rewrite ?orb_false_r; auto.
  - unfold_methods. destruct run, (next <=? -1), flag, cb; cbn;
      rewrite ?orb_false_r; auto.
Qed.

(** X4: a controller constructed with [simulate=True], or one whose
    import of [RPi.GPIO] failed, never calls the GPIO library, whatever is
    called on it and however its timer threads run. *)
Theorem simulation_never_touches_gpio (simulate gpio_importable : bool)
        (schedule : list System.action) :
  simulate || negb gpio_importable = true ->
  existsb is_gpio
    (System.log (System.run schedule (System.boot simulate gpio_importable)))
  = false.
Proof.
  intros Hmode. unfold System.run.
  assert (H : forall sys,
             PumpController.simulate (System.controller sys) = true ->
             existsb is_gpio (System.log sys) = false ->
             existsb is_gpio
               (System.log (fold_left (fun s a => System.step a s) schedule sys))
             = false).
  { induction schedule as [|a schedule IH]; intros sys Hsim Hq; [exact Hq|].
    cbn [fold_left].
    destruct (step_quiet a sys Hsim) as [Hsim' Hq'].
    apply IH; [assumption | congruence]. }
  destruct simulate, gpio_importable; try discriminate; apply H; reflexivity.
Qed.

Lemma simulation_never_touches_gpio_witness :
  existsb is_gpio
    (System.log
       (System.run
          [System.Call_start_timer 2 70 (Some 0%nat); System.Resume 0;
           System.Call_stop_timer; System.Resume 0; System.Call_cleanup]
          (System.boot false false)))
  = false.
Proof.
  apply simulation_never_touches_gpio. reflexivity.
Defined.

(** X5: the calls the controller refuses leave everything as it was, the
    timer threads and the log included: [stop_pump()] on a stopped pump,
    [start_timer(...)] while a timer is active (no second thread is
    started), and [stop_timer()] with no timer active. Each returns
    [False]. *)
Theorem refused_calls_change_nothing (sys : System.t) :
  (is_running (System.controller sys) = false ->
   System.step System.Call_stop_pump sys = sys /\
   returned (stop_pump (System.controller sys)) = false) /\
  (timer_running (System.controller sys) = true ->
   forall seconds speed cb,
     System.step (System.Call_start_timer seconds speed cb) sys = sys /\
     returned (start_timer seconds speed cb (System.controller sys))
     = (false, None)) /\
  (timer_running (System.controller sys) = false ->
   System.step System.Call_stop_timer sys = sys /\
   returned (stop_timer (System.controller sys)) = false).
Proof.
  destruct sys as [c ws l]. split_state c. cbn.
  repeat split; subst; cbn; rewrite ?app_nil_r; reflexivity.
Qed.

Lemma refused_calls_change_nothing_witness :
  System.step (System.Call_start_timer 9 10 None) timer_ticking = timer_ticking /\
  System.step System.Call_stop_timer (System.boot true true)
  = System.boot true true.
Proof.
  split.
  - exact (proj1 (proj1 (proj2 (refused_calls_change_nothing timer_ticking))
                    eq_refl 9 10 None)).
  - exact (proj1 (proj2 (proj2 (refused_calls_change_nothing (System.boot true true)))
                    eq_refl)).
Defined.

(** X6: [stop_pump()] called while a timer counts down does not cancel
    the timer: [timer_running] and the stop flag stay as they were, and the
    sleeping worker's next step is an ordinary tick (it stores and reports
    the next remaining value and sleeps again) that leaves the pump
    stopped. *)
Theorem stop_pump_keeps_timer (c : state) (r : Z) :
  timer_stop_flag c = false -> 0 <= r ->
  let c1 := self_after (stop_pump c) in
  timer_running c1 = timer_running c /\
  timer_stop_flag c1 = false /\
  worker_resume (Sleeping r) c1 =
    (Some (Sleeping (r - 1)), set_timer_remaining r c1,
     tick_calls (update_callback c) r) /\
  is_running (self_after (worker_resume (Sleeping r) c1)) = false.
Proof.
  intros Hflag Hr. cbn zeta.
  assert (H1 : timer_running (self_after (stop_pump c)) = timer_running c /\
               timer_stop_flag (self_after (stop_pump c)) = false /\
               update_callback (self_after (stop_pump c)) = update_callback c /\
               is_running (self_after (stop_pump c)) = false).
  { split_state c. cbn in Hflag. subst. destruct run, sim; cbn; auto. }
  destruct H1 as (Ht & Hf & Hcb & Hrun).
  cbn [worker_resume]. rewrite worker_iteration_tick by assumption.
  rewrite Hcb. cbn. auto.
Qed.

Lemma stop_pump_keeps_timer_witness :
  let c1 := self_after (stop_pump (System.controller timer_ticking)) in
  timer_running c1 = true /\
  returned (worker_resume (Sleeping 2) c1) = Some (Sleeping 1).
Proof.
  destruct (stop_pump_keeps_timer (System.controller timer_ticking) 2 eq_refl
              ltac:(lia)) as (Ht & _ & Hw & _).
  split; [exact Ht | exact (f_equal returned Hw)].
Defined.

Lemma timer_worker_ends_idle (seconds speed : Z) (c : state) :
  idle (self_after (_timer_worker seconds speed c)) /\
  timer_remaining (self_after (_timer_worker seconds speed c)) = 0.
Proof.
  unfold _timer_worker. rewrite !self_after_bind.
  set (c1 := self_after (start_pump speed c)).
  assert (Hrun1 : is_running c1 = true).
  { subst c1. destruct (is_running c) eqn:Hrun.
    - rewrite start_pump_running by assumption. exact Hrun.
    - rewrite start_pump_stopped by assumption. reflexivity. }
  destruct (countdown_loop_same_pump (Py.range_down seconds (-1)) c1) as [Hr _].
  set (c2 := self_after (countdown_loop (Py.range_down seconds (-1)) c1)) in *.
  rewrite Hrun1 in Hr. clearbody c2. clear - Hr.
  split_state c2. cbn in Hr. subst. unfold idle.
  destruct sim, cb; cbn; auto.
Qed.

(** X7: a timer thread never leaves the pump on when it ends. Run alone,
    [_timer_worker] ends with the pump stopped at speed 0, no timer active
    and [timer_remaining] 0, from any state and for any arguments; and the
    step in which a thread ends leaves the same, from any state that
    satisfies the invariant. *)
Theorem timer_thread_ends_idle (w : worker) (c : state) :
  (forall seconds speed,
      idle (self_after (_timer_worker seconds speed c)) /\
      timer_remaining (self_after (_timer_worker seconds speed c)) = 0) /\
  (pump_invariant c -> returned (worker_resume w c) = None ->
   idle (self_after (worker_resume w c)) /\
   timer_remaining (self_after (worker_resume w c)) = 0).
Proof.
  split; [intros; apply timer_worker_ends_idle|].
  intros [Hoff Hon] Hend. split_state c. cbn in Hoff, Hon. unfold idle.
  destruct w as [seconds speed | next]; revert Hend; unfold_methods.
  - destruct run, (seconds <=? -1), flag, sim, cb; cbn; intros; auto; discriminate.
  - destruct run, (next <=? -1), flag, sim, cb; cbn; intros;
      try rewrite Hoff by reflexivity; auto; discriminate.
Qed.

Lemma timer_thread_ends_idle_witness :
  idle (self_after (worker_resume (Sleeping (-1)) (System.controller timer_ticking))).
Proof.
  assert (Hinv : pump_invariant (System.controller timer_ticking)).
  { split; cbn; intros; [discriminate | lia]. }
  exact (proj1 (proj2 (timer_thread_ends_idle (Sleeping (-1))
                         (System.controller timer_ticking)) Hinv eq_refl)).
Defined.

Lemma countdown_loop_log (f : callback) (rs : list Z) (c : state) :
  timer_stop_flag c = false -> update_callback c = Some f ->
  calls (countdown_loop rs c) = flat_map (tick_calls (Some f)) rs.
Proof.
  revert c. induction rs as [|r rs IH]; intros c Hflag Hcb; [reflexivity|].
  rewrite countdown_loop_tick by assumption.
  specialize (IH (set_timer_remaining r c) Hflag Hcb).
  destruct (countdown_loop rs (set_timer_remaining r c)) as [[u c'] l].
  cbn in IH |- *. rewrite Hcb, IH. reflexivity.
Qed.

Lemma last_cons {A : Type} (x d : A) (xs : list A) :
  last (x :: xs) d = last xs x.
Proof.
  revert x d. induction xs as [|y ys IH]; intros x d; [reflexivity|].
  change (last (x :: y :: ys) d) with (last (y :: ys) d).
  rewrite (IH y d), (IH y x). reflexivity.
Qed.

(** The loop changes no field but [timer_remaining]. *)
Lemma countdown_loop_fields (rs : list Z) (c : state) :
  timer_stop_flag c = false ->
  self_after (countdown_loop rs c)
  = set_timer_remaining (last rs (timer_remaining c)) c.
Proof.
  revert c. induction rs as [|r rs IH]; intros c Hflag.
  - destruct c; reflexivity.
  - rewrite countdown_loop_tick by assumption.
    specialize (IH (set_timer_remaining r c) Hflag).
    destruct (countdown_loop rs (set_timer_remaining r c)) as [[u c'] l].
    rewrite last_cons. unfold self_after in *. cbn [fst snd] in *.
    rewrite IH. reflexivity.
Qed.

Lemma callback_args_ticks (f : callback) (rs : list Z) :
  callback_args (flat_map (tick_calls (Some f)) rs) = rs.
Proof.
  induction rs as [|r rs IH]; [reflexivity|]. cbn. rewrite IH. reflexivity.
Qed.

Lemma filter_app_event (p : event -> bool) (l1 l2 : list event) :
  filter p (l1 ++ l2) = filter p l1 ++ filter p l2.
Proof. apply filter_app. Qed.

Lemma filter_ticks (f : callback) (rs : list Z) :
  filter (fun e => negb (is_gpio e)) (flat_map (tick_calls (Some f)) rs)
  = flat_map (tick_calls (Some f)) rs.
Proof.
  induction rs as [|r rs IH]; [reflexivity|]. cbn. rewrite IH. reflexivity.
Qed.

(** X8: the whole log of a timer that is left to run. For [seconds >= 0]
    the worker of [start_timer(seconds, speed, cb)] makes, apart from its
    GPIO calls, exactly these calls: for each of the [seconds + 1] values
    [seconds], ..., 1, 0 the callback with that value and then a sleep of
    one second, and at the end the callback with 0 once more. *)
Theorem uncancelled_timer_log (f : callback) (seconds speed : Z) (c : state) :
  0 <= seconds ->
  timer_stop_flag c = false -> update_callback c = Some f ->
  filter (fun e => negb (is_gpio e)) (calls (_timer_worker seconds speed c))
  = flat_map (tick_calls (Some f)) (Py.range_down seconds (-1)) ++ [Callback f 0]
  /\ length (Py.range_down seconds (-1)) = Z.to_nat (seconds + 1)
  /\ length (filter is_sleep (calls (_timer_worker seconds speed c)))
     = Z.to_nat (seconds + 1).
Proof.
  intros Hsec Hflag Hcb.
  destruct (start_pump_callbacks speed c) as (_ & Hf1 & Hcb1).
  rewrite Hflag in Hf1. rewrite Hcb in Hcb1.
  assert (Hlen : forall n start, length (Py.countdown start n) = n).
  { induction n as [|n IH]; intros start; [reflexivity|]. cbn. rewrite IH. reflexivity. }
  assert (Hsleeps : forall rs,
             length (filter is_sleep (flat_map (tick_calls (Some f)) rs)) = length rs).
  { induction rs as [|r rs IH]; [reflexivity|]. cbn. rewrite IH. reflexivity. }
  unfold _timer_worker.
  rewrite !calls_bind, !filter_app_event.
  rewrite (countdown_loop_log f) by assumption.
  rewrite filter_ticks.
  set (c1 := self_after (start_pump speed c)) in *.
  rewrite (countdown_loop_fields _ c1 Hf1).
  set (c2 := set_timer_remaining _ c1).
  assert (Hcb2 : update_callback c2 = Some f) by exact Hcb1.
  assert (Hstart : filter (fun e => negb (is_gpio e)) (calls (start_pump speed c)) = []
                   /\ filter is_sleep (calls (start_pump speed c)) = []).
  { destruct (is_running c) eqn:Hrun.
    - rewrite start_pump_running by assumption. auto.
    - rewrite start_pump_stopped by assumption. destruct (simulate c); auto. }
  assert (Hfin : filter (fun e => negb (is_gpio e)) (calls (worker_finish c2))
                 = [Callback f 0]
                 /\ filter is_sleep (calls (worker_finish c2)) = []).
  { clearbody c2. clear - Hcb2. split_state c2. cbn in Hcb2. subst.
    destruct run, sim; cbn; auto. }
  destruct Hstart as [Hs1 Hs2]. destruct Hfin as [Hfin1 Hfin2].
  rewrite Hs1, Hs2, Hfin1, Hfin2. cbn [app]. rewrite app_nil_r.
  unfold Py.range_down. rewrite Hsleeps, !Hlen.
  replace (seconds - -1) with (seconds + 1) by lia. auto.
Qed.

Lemma uncancelled_timer_log_witness :
  filter (fun e => negb (is_gpio e))
    (calls (_timer_worker 2 70
              (self_after (start_timer 2 70 (Some 5%nat) (fst (__init__ false true))))))
  = [Callback 5%nat 2; Sleep 1; Callback 5%nat 1; Sleep 1;
     Callback 5%nat 0; Sleep 1; Callback 5%nat 0].
Proof.
  refine (proj1 (uncancelled_timer_log 5%nat 2 70
                   (self_after (start_timer 2 70 (Some 5%nat) (fst (__init__ false true))))
                   _ eq_refl eq_refl)).
  lia.
Defined.

Lemma run_app (s1 s2 : list System.action) (sys : System.t) :
  System.run (s1 ++ s2) sys = System.run s2 (System.run s1 sys).
Proof. apply fold_left_app. Qed.

(** A sleeping worker that is left alone and not cancelled ticks. *)
Lemma sleeping_worker_ticks (k : nat) :
  forall (r : Z) (c : state) (l : list event),
    timer_stop_flag c = false -> Z.of_nat k <= r + 1 ->
    System.run (System.uninterrupted k) (System.mk c [Sleeping r] l) =
      System.mk (self_after (countdown_loop (Py.countdown r k) c))
        [Sleeping (r - Z.of_nat k)]
        (l ++ calls (countdown_loop (Py.countdown r k) c)).
Proof.
  induction k as [|k IH]; intros r c l Hflag Hk.
  - cbn. rewrite app_nil_r, Z.sub_0_r. reflexivity.
  - change (System.run (System.uninterrupted (S k)) (System.mk c [Sleeping r] l))
      with (System.run (System.uninterrupted k)
              (System.step (System.Resume 0) (System.mk c [Sleeping r] l))).
    rewrite step_resume_single. cbn [worker_resume Py.countdown].
    rewrite worker_iteration_tick by (assumption || lia).
    cbn [returned self_after calls fst snd System.spawned].
    rewrite (IH (r - 1)) by (assumption || lia).
    rewrite countdown_loop_tick by assumption.
    destruct (countdown_loop (Py.countdown (r - 1) k) (set_timer_remaining r c))
      as [[u c'] l'].
    cbn [returned self_after calls fst snd].
    rewrite <- app_assoc. f_equal. f_equal. f_equal. lia.
Qed.

(** [stop_timer()] and then the wake-up of a sleeping worker. *)
Lemma stop_then_wake (r : Z) (c : state) (l : list event) (f : callback) :
  timer_running c = true -> is_running c = true -> update_callback c = Some f ->
  let sys := System.run [System.Call_stop_timer; System.Resume 0]
               (System.mk c [Sleeping r] l) in
  System.workers sys = [] /\
  idle (System.controller sys) /\
  timer_remaining (System.controller sys) = 0 /\
  callback_args (System.log sys) = callback_args l ++ [0].
Proof.
  intros Htimer Hrun Hcb.
  cbn [System.run fold_left].
  change (System.step System.Call_stop_timer (System.mk c [Sleeping r] l))
    with (System.mk (self_after (stop_timer c)) [Sleeping r]
            (l ++ calls (stop_timer c))).
  rewrite step_resume_single. cbn [worker_resume].
  assert (Hf : timer_stop_flag (self_after (stop_timer c)) = true).
  { clear - Htimer. split_state c. cbn in Htimer. subst. destruct run, sim; reflexivity. }
  rewrite worker_iteration_done by auto.
  cbn [returned self_after calls fst snd System.spawned System.workers
       System.controller System.log].
  split_state c. cbn in Htimer, Hrun, Hcb. subst.
  unfold idle. unfold_methods.
  destruct sim; cbn; rewrite ?callback_args_app; cbn; rewrite ?app_nil_r; auto.
Qed.

(** X9: cancelling a timer. From any state with no timer active, after
    [start_timer(seconds, speed, cb)], [k] steps of its worker (with [k] at
    most [seconds + 1], so the worker has not reached the end of its loop),
    [stop_timer()] and the worker's next step: the thread is gone, the pump
    is stopped at speed 0, no timer is active, [timer_remaining] is 0, and
    the callback has received [seconds], [seconds - 1], ... ([k] values) and
    then 0, once. *)
Theorem cancel_after_ticks (c : state) (l : list event) (seconds speed : Z)
        (f : callback) (k : nat) :
  timer_running c = false -> Z.of_nat k <= seconds + 1 ->
  let sys := System.run
               (System.Call_start_timer seconds speed (Some f)
                  :: System.uninterrupted k
                  ++ [System.Call_stop_timer; System.Resume 0])
               (System.mk c [] l) in
  System.workers sys = [] /\
  idle (System.controller sys) /\
  timer_remaining (System.controller sys) = 0 /\
  callback_args (System.log sys)
  = callback_args l ++ Py.countdown seconds k ++ [0].
Proof.
  intros Htimer Hk. cbn zeta.
  change (System.run (?a :: ?rest) ?sys) with (System.run rest (System.step a sys)).
  rewrite run_app.
  assert (Hstart : System.step (System.Call_start_timer seconds speed (Some f))
                     (System.mk c [] l)
                   = System.mk (self_after (start_timer seconds speed (Some f) c))
                       [Spawned seconds speed] l).
  { split_state c. cbn in Htimer. subst trun. cbn. rewrite app_nil_r. reflexivity. }
  rewrite Hstart. clear Hstart.
  set (c1 := self_after (start_timer seconds speed (Some f) c)).
  assert (Hc1 : timer_stop_flag c1 = false /\ update_callback c1 = Some f /\
                timer_running c1 = true).
  { subst c1. split_state c. cbn in Htimer. subst trun. cbn. auto. }
  clearbody c1. destruct Hc1 as (Hflag & Hcb & Hrun).
  destruct k as [|k].
  - (* stopped before the worker's first step *)
    cbn [System.uninterrupted repeat System.run fold_left app].
    change (System.step System.Call_stop_timer (System.mk c1 [Spawned seconds speed] l))
      with (System.mk (self_after (stop_timer c1)) [Spawned seconds speed]
              (l ++ calls (stop_timer c1))).
    rewrite step_resume_single. cbn [worker_resume].
    rewrite returned_bind, self_after_bind, calls_bind.
    assert (Hf3 : timer_stop_flag (self_after (stop_timer c1)) = true).
    { clear - Hrun. split_state c1. cbn in Hrun. subst. destruct run, sim; reflexivity. }
    destruct (start_pump_callbacks speed (self_after (stop_timer c1)))
      as (_ & Hf4 & _).
    rewrite Hf3 in Hf4. rewrite worker_iteration_done by auto.
    cbn [returned self_after calls fst snd System.spawned System.workers
         System.controller System.log].
    split_state c1. cbn in Hflag, Hcb, Hrun. subst.
    unfold idle. unfold_methods.
    destruct run, sim; cbn; rewrite ?callback_args_app; cbn;
      rewrite ?app_nil_r; auto.
  - change (System.run (System.uninterrupted (S k)) ?sys)
      with (System.run (System.uninterrupted k) (System.step (System.Resume 0) sys)).
    rewrite step_resume_single. cbn [worker_resume].
    rewrite returned_bind, self_after_bind, calls_bind.
    destruct (start_pump_callbacks speed c1) as (Hs & Hf2 & Hcb2).
    rewrite Hflag in Hf2. rewrite Hcb in Hcb2.
    assert (Hrun2 : is_running (self_after (start_pump speed c1)) = true /\
                    timer_running (self_after (start_pump speed c1)) = true).
    { clear - Hrun. split_state c1. cbn in Hrun. subst. destruct run, sim; cbn; auto. }
    set (c2 := self_after (start_pump speed c1)) in *.
    set (l2 := calls (start_pump speed c1)) in *.
    clearbody c2 l2. destruct Hrun2 as [Hon Htr].
    rewrite worker_iteration_tick by (assumption || lia).
    cbn [returned self_after calls fst snd System.spawned].
    rewrite sleeping_worker_ticks by (assumption || lia).
    rewrite (countdown_loop_fields _ (set_timer_remaining seconds c2) Hf2).
    rewrite (countdown_loop_log f _ (set_timer_remaining seconds c2) Hf2 Hcb2).
    rewrite Hcb2.
    set (rem := last _ _). clearbody rem.
    set (ticks := flat_map _ _).
    assert (Hticks : callback_args ticks = Py.countdown (seconds - 1) k)
      by apply callback_args_ticks.
    clearbody ticks.
    destruct (stop_then_wake (seconds - 1 - Z.of_nat k)
                (set_timer_remaining rem (set_timer_remaining seconds c2))
                ((l ++ l2 ++ [Callback f seconds; Sleep 1]) ++ ticks) f Htr Hon Hcb2)
      as (Hw & Hidle & Hrem & Hlog).
    cbn zeta in Hw, Hidle, Hrem, Hlog.
    unfold tick_calls. rewrite Hw, Hrem, Hlog. repeat split; try apply Hidle.
    rewrite !callback_args_app, Hs, Hticks. cbn.
    rewrite <- !app_assoc. reflexivity.
Qed.

Lemma cancel_after_ticks_witness :
  callback_args
    (System.log
       (System.run
          (System.Call_start_timer 5 40 (Some 1%nat)
             :: System.uninterrupted 2
             ++ [System.Call_stop_timer; System.Resume 0])
          (System.mk manual_30 [] [])))
  = [5; 4; 0].
Proof.
  refine (proj2 (proj2 (proj2
    (cancel_after_ticks manual_30 [] 5 40 1%nat 2 eq_refl _)))).
  cbn. lia.
Defined.

(** X10: a worker outlives a restart. If [stop_timer()] is followed by a
    new [start_timer(..., cb')] before the old worker wakes up, the new
    call clears the stop flag again, so the old worker is not cancelled: on
    waking it ticks on, stores its own remaining value in
    [timer_remaining] and reports it to the new callback, next to the
    thread the new call has started. *)
Theorem stale_worker_survives_restart (c : state) (r seconds' speed' : Z)
        (f' : callback) :
  timer_running c = true -> 0 <= r ->
  let c1 := self_after (stop_timer c) in
  let r2 := start_timer seconds' speed' (Some f') c1 in
  returned r2 = (true, Some (Spawned seconds' speed')) /\
  worker_resume (Sleeping r) (self_after r2) =
    (Some (Sleeping (r - 1)), set_timer_remaining r (self_after r2),
     [Callback f' r; Sleep 1]).
Proof.
  intros Htimer Hr. cbn zeta.
  assert (H : returned (start_timer seconds' speed' (Some f') (self_after (stop_timer c)))
              = (true, Some (Spawned seconds' speed')) /\
              timer_stop_flag
                (self_after (start_timer seconds' speed' (Some f')
                               (self_after (stop_timer c)))) = false /\
              update_callback
                (self_after (start_timer seconds' speed' (Some f')
                               (self_after (stop_timer c)))) = Some f').
  { split_state c. cbn in Htimer. subst. destruct run, sim; cbn; auto. }
  destruct H as (Hret & Hflag & Hcb). split; [exact Hret|].
  cbn [worker_resume]. rewrite worker_iteration_tick by assumption.
  rewrite Hcb. reflexivity.
Qed.

Lemma stale_worker_survives_restart_witness :
  returned
    (worker_resume (Sleeping 2)
       (self_after (start_timer 9 20 (Some 8%nat)
                      (self_after (stop_timer (System.controller timer_ticking))))))
  = Some (Sleeping 1).
Proof.
  exact (f_equal returned
           (proj2 (stale_worker_survives_restart (System.controller timer_ticking)
                     2 9 20 8%nat eq_refl ltac:(lia)))).
Defined.

(** ** The Tk controller against the web controller *)

Lemma agrees_bind {A A' B B' : Type}
      (m : @M state A) (m' : @M TkPumpController.state A')
      (k : A -> @M state B) (k' : A' -> @M TkPumpController.state B') :
  agrees m m' -> (forall a a', agrees (k a) (k' a')) ->
  agrees (bind m k) (bind m' k').
Proof.
  intros Hm Hk c. destruct (Hm c) as [Hs Hc].
  rewrite !self_after_bind, !calls_bind, <- Hs, <- Hc.
  destruct (Hk (returned (m c)) (returned (m' (forget c))) (self_after (m c)))
    as [Hs' Hc'].
  rewrite Hs', Hc'. auto.
Qed.

Lemma start_pump_agrees (speed : Z) :
  agrees (start_pump speed) (TkPumpController.start_pump speed).
Proof.
  intros c. split_state c. destruct run, sim; split; reflexivity.
Qed.

Lemma stop_pump_agrees : agrees stop_pump TkPumpController.stop_pump.
Proof.
  intros c. split_state c. destruct run, sim; split; reflexivity.
Qed.

Lemma stop_timer_agrees : agrees stop_timer TkPumpController.stop_timer.
Proof.
  intros c. split_state c. destruct trun, run, sim; split; reflexivity.
Qed.

Lemma start_timer_agrees (seconds speed : Z) (cb : option callback) :
  agrees (start_timer seconds speed cb)
    (TkPumpController.start_timer seconds speed cb).
Proof.
  intros c. split_state c. destruct trun; split; reflexivity.
Qed.

Lemma worker_finish_agrees : agrees worker_finish tk_worker_finish.
Proof.
  intros c. split_state c. destruct run, sim, cb; split; reflexivity.
Qed.

Lemma tk_countdown_loop_break (r : Z) (rs : list Z) (t : TkPumpController.state) :
  TkPumpController.timer_stop_flag t = true ->
  TkPumpController.countdown_loop (r :: rs) t = (tt, t, []).
Proof.
  intros Hflag. cbn [TkPumpController.countdown_loop].
  unfold bind at 1, get at 1. rewrite Hflag. reflexivity.
Qed.

Lemma tk_countdown_loop_tick (r : Z) (rs : list Z) (t : TkPumpController.state) :
  TkPumpController.timer_stop_flag t = false ->
  TkPumpController.countdown_loop (r :: rs) t =
    let '(u, t', l) := TkPumpController.countdown_loop rs t in
    (u, t', tick_calls (TkPumpController.update_callback t) r ++ l).
Proof.
  intros Hflag. cbn [TkPumpController.countdown_loop].
  unfold bind at 1, get at 1. rewrite Hflag.
  cbv [bind TkPumpController.notify get emit ret tick_calls].
  destruct (TkPumpController.update_callback t);
    destruct (TkPumpController.countdown_loop rs t) as [[u t'] l];
    reflexivity.
Qed.

Lemma countdown_loop_agrees (rs : list Z) :
  agrees (countdown_loop rs) (TkPumpController.countdown_loop rs).
Proof.
  induction rs as [|r rs IH]; intros c; [split; reflexivity|].
  destruct (timer_stop_flag c) eqn:Hflag.
  - rewrite countdown_loop_break, tk_countdown_loop_break by assumption.
    split; reflexivity.
  - rewrite countdown_loop_tick, tk_countdown_loop_tick by assumption.
    destruct (IH (set_timer_remaining r c)) as [Hs Hc].
    change (forget (set_timer_remaining r c)) with (forget c) in Hs, Hc.
    destruct (countdown_loop rs (set_timer_remaining r c)) as [[u c'] l].
    destruct (TkPumpController.countdown_loop rs (forget c)) as [[u' t'] l'].
    unfold self_after, calls in *. cbn [fst snd] in *. subst.
    split; reflexivity.
Qed.

Lemma timer_worker_agrees (seconds speed : Z) :
  agrees (_timer_worker seconds speed)
    (TkPumpController._timer_worker seconds speed).
Proof.
  change (TkPumpController._timer_worker seconds speed)
    with (bind (TkPumpController.start_pump speed)
            (fun _ => bind (TkPumpController.countdown_loop (Py.range_down seconds (-1)))
                        (fun _ => tk_worker_finish))).
  unfold _timer_worker.
  apply agrees_bind; [apply start_pump_agrees|]. intros _ _.
  apply agrees_bind; [apply countdown_loop_agrees|]. intros _ _.
  apply worker_finish_agrees.
Qed.

Lemma cleanup_agrees (c : state) :
  forget (self_after (cleanup c)) = self_after (TkPumpController.cleanup (forget c)) /\
  calls (TkPumpController.cleanup (forget c)) =
    calls (cleanup c) ++
    (if simulate c then [] else [PWM_stop RPWM; PWM_stop LPWM; GPIO_cleanup]).
Proof.
  split_state c. destruct trun, run, sim; split; reflexivity.
Qed.

(** X11: the controller of the Tk programs (src/pump_control.py,
    src/main.py) and the web controller (src/app.py) behave alike. On
    states with the same common fields, [start_pump], [stop_pump],
    [start_timer], [_timer_worker] and [stop_timer] make the same calls and
    leave the same common fields, and [start_timer] starts a thread in the
    one exactly when it does in the other; [cleanup] differs only in that
    the Tk one, on real hardware, also stops both PWM channels and calls
    [GPIO.cleanup()]. *)
Theorem tk_controller_agrees (seconds speed : Z) (cb : option callback) :
  agrees (start_pump speed) (TkPumpController.start_pump speed) /\
  agrees stop_pump TkPumpController.stop_pump /\
  agrees (start_timer seconds speed cb)
    (TkPumpController.start_timer seconds speed cb) /\
  (forall c,
      snd (returned (start_timer seconds speed cb c))
      = option_map (fun a => Spawned (fst a) (snd a))
          (returned (TkPumpController.start_timer seconds speed cb (forget c)))) /\
  agrees (_timer_worker seconds speed)
    (TkPumpController._timer_worker seconds speed) /\
  agrees stop_timer TkPumpController.stop_timer /\
  (forall c,
      forget (self_after (cleanup c))
      = self_after (TkPumpController.cleanup (forget c)) /\
      calls (TkPumpController.cleanup (forget c)) =
        calls (cleanup c) ++
        (if simulate c then [] else [PWM_stop RPWM; PWM_stop LPWM; GPIO_cleanup])).
Proof.
  repeat split;
    try apply start_pump_agrees; try apply stop_pump_agrees;
    try apply start_timer_agrees; try apply timer_worker_agrees;
    try apply stop_timer_agrees; try apply cleanup_agrees.
  split_state c. destruct trun; reflexivity.
Qed.

Lemma forget_lift (t : TkPumpController.state) : forget (lift t) = t.
Proof. destruct t; reflexivity. Qed.

Lemma tk_timer_worker_invariant (seconds speed : Z) (t : TkPumpController.state) :
  tk_pump_invariant t ->
  tk_pump_invariant (self_after (TkPumpController._timer_worker seconds speed t)).
Proof.
  intros Hinv.
  assert (Hl : pump_invariant (lift t)) by (destruct t; exact Hinv).
  apply (timer_worker_invariant seconds speed) in Hl.
  destruct (timer_worker_agrees seconds speed (lift t)) as [Hs _].
  rewrite forget_lift in Hs. rewrite <- Hs. exact Hl.
Qed.

(** X12: the PumpState invariant for the Tk controller: it holds after
    [__init__], and [start_pump] (for any speed), [stop_pump],
    [start_timer], [_timer_worker], [stop_timer] and [cleanup] keep it. *)
Theorem tk_pump_invariant_preserved (t : TkPumpController.state) :
  (forall simulate gpio_importable,
      tk_pump_invariant (fst (TkPumpController.__init__ simulate gpio_importable))) /\
  (tk_pump_invariant t ->
   (forall speed,
       tk_pump_invariant (self_after (TkPumpController.start_pump speed t))) /\
   tk_pump_invariant (self_after (TkPumpController.stop_pump t)) /\
   (forall seconds speed cb,
       tk_pump_invariant
         (self_after (TkPumpController.start_timer seconds speed cb t))) /\
   (forall seconds speed,
       tk_pump_invariant
         (self_after (TkPumpController._timer_worker seconds speed t))) /\
   tk_pump_invariant (self_after (TkPumpController.stop_timer t)) /\
   tk_pump_invariant (self_after (TkPumpController.cleanup t))).
Proof.
  split.
  - intros [|] [|]; split; cbn; intros; try lia; discriminate.
  - intros Hinv.
    split; [|split; [|split; [|split; [|split]]]];
      try (intros seconds speed; apply tk_timer_worker_invariant, Hinv);
      destruct Hinv as [Hoff Hon];
      destruct t as [sim run spd trun flag cb]; cbn in Hoff, Hon;
      unfold tk_pump_invariant; intros.
    + destruct run, sim; cbn; split; intros; auto; try discriminate; lia.
    + destruct run, sim; cbn; split; intros; auto; try discriminate; lia.
    + destruct trun; cbn; auto.
    + destruct trun, run, sim; cbn; split; intros; auto; try discriminate; lia.
    + destruct trun, run, sim; cbn; split; intros; auto; try discriminate; lia.
Qed.

Lemma tk_pump_invariant_preserved_witness :
  tk_pump_invariant (self_after (TkPumpController._timer_worker 3 50 tk_timer_started)).
Proof.
  refine (proj1 (proj2 (proj2 (proj2
    (proj2 (tk_pump_invariant_preserved tk_timer_started) _)))) 3 50).
  split; cbn; intros; [reflexivity | discriminate].
Defined.

(** X13: [cleanup()] of the Tk controller, from a state that satisfies the
    invariant: afterwards the pump is stopped at speed 0 and no timer is
    active; a second [cleanup()] changes no field; in simulation it makes
    no call, and on real hardware every [cleanup()], the second one too,
    ends by stopping both PWM channels and calling [GPIO.cleanup()]. *)
Theorem tk_cleanup_idempotent (t : TkPumpController.state) :
  tk_pump_invariant t ->
  let r1 := TkPumpController.cleanup t in
  let r2 := TkPumpController.cleanup (self_after r1) in
  tk_idle (self_after r1) /\ self_after r2 = self_after r1 /\
  calls r2 =
    (if TkPumpController.simulate t then []
     else [PWM_stop RPWM; PWM_stop LPWM; GPIO_cleanup]) /\
  exists before,
    calls r1 = before ++
      (if TkPumpController.simulate t then []
       else [PWM_stop RPWM; PWM_stop LPWM; GPIO_cleanup]).
Proof.
  intros [Hoff Hon]. destruct t as [sim run spd trun flag cb]. cbn in Hoff, Hon.
  unfold tk_idle.
  destruct run, trun, sim; cbn; try rewrite Hoff by reflexivity;
    repeat split; auto;
    try (exists []; reflexivity);
    try (eexists; rewrite app_nil_r; reflexivity);
    eexists [_; _; _; _]; reflexivity.
Qed.

Lemma tk_cleanup_idempotent_witness :
  tk_idle (self_after (TkPumpController.cleanup tk_timer_started)).
Proof.
  refine (proj1 (tk_cleanup_idempotent tk_timer_started _)).
  split; cbn; intros; [reflexivity | discriminate].
Defined.

(** ** More about the sensor reader *)

Lemma scale_channels_none (b : SensorReader.backend) (channels : list nat)
      (ch : nat) :
  In ch channels -> SensorReader.channel_value b ch = None ->
  SensorReader.scale_channels b channels = None.
Proof.
  induction channels as [|x rest IH]; intros Hin Hnone; [contradiction|].
  cbn [SensorReader.scale_channels].
  destruct (Nat.eq_dec x ch) as [->|Hne].
  - rewrite Hnone. reflexivity.
  - destruct Hin as [Heq|Hin]; [congruence|].
    rewrite (IH Hin Hnone).
    destruct (SensorReader.channel_value b x); [|reflexivity].
    destruct (SensorReader.scale z); reflexivity.
Qed.

(** X14: [read_moisture()] returns what it leaves in the cache, keeps the
    [simulate] flag and the four entries; in simulation the cache becomes
    the four values drawn; on real hardware, when reading any of the four
    channels raises, the exception is swallowed and the reader, with its
    previous reading, is unchanged. *)
Theorem read_moisture_cache (b : SensorReader.backend) (s : SensorReader.state) :
  let r := SensorReader.read_moisture b s in
  fst r = SensorReader.moisture (snd r) /\
  SensorReader.simulate (snd r) = SensorReader.simulate s /\
  (length (SensorReader.moisture s) = 4%nat ->
   length (SensorReader.moisture (snd r)) = 4%nat) /\
  (SensorReader.simulate s = true ->
   fst r = [SensorReader.randint b 0%nat; SensorReader.randint b 1%nat;
            SensorReader.randint b 2%nat; SensorReader.randint b 3%nat]) /\
  (SensorReader.simulate s = false ->
   forall ch, (ch < 4)%nat -> SensorReader.channel_value b ch = None ->
              r = (SensorReader.moisture s, s)).
Proof.
  cbn zeta. split; [|split; [|split; [|split]]].
  - unfold SensorReader.read_moisture.
    destruct (SensorReader.simulate s); [reflexivity|].
    destruct (SensorReader.scale_channels b [0; 1; 2; 3]%nat); reflexivity.
  - unfold SensorReader.read_moisture.
    destruct (SensorReader.simulate s) eqn:Hsim; [reflexivity|].
    destruct (SensorReader.scale_channels b [0; 1; 2; 3]%nat); auto.
  - intros Hlen. apply moisture_length_read, Hlen.
  - intros Hsim. unfold SensorReader.read_moisture. rewrite Hsim. reflexivity.
  - intros Hsim ch Hch Hnone. unfold SensorReader.read_moisture. rewrite Hsim.
    rewrite (scale_channels_none b [0; 1; 2; 3]%nat ch); [reflexivity| |assumption].
    cbn. lia.
Qed.

Lemma read_moisture_cache_witness :
  let b := {| SensorReader.randint := fun _ => 0;
              SensorReader.channel_value :=
                fun ch => if Nat.eqb ch 2 then None else Some 12000 |} in
  let s := {| SensorReader.simulate := false;
              SensorReader.moisture := [510; 520; 530; 540] |} in
  SensorReader.read_moisture b s = ([510; 520; 530; 540], s).
Proof.
  cbn zeta.
  refine (proj2 (proj2 (proj2 (proj2
            (read_moisture_cache
               {| SensorReader.randint := fun _ => 0;
                  SensorReader.channel_value :=
                    fun ch => if Nat.eqb ch 2 then None else Some 12000 |}
               {| SensorReader.simulate := false;
                  SensorReader.moisture := [510; 520; 530; 540] |}))))
            eq_refl 2%nat _ eq_refl).
  lia.
Defined.

Lemma scale_is_trunc_all : forallb scale_is_trunc channel_values = true.
Proof. vm_compute. reflexivity. Qed.

Lemma channel_values_range (v : Z) :
  0 <= v <= 32768 -> In v channel_values.
Proof.
  unfold channel_values.
  assert (H : forall n start, start - Z.of_nat n < v <= start ->
                              In v (Py.countdown start n)).
  { induction n as [|n IH]; intros start Hr; [lia|].
    cbn [Py.countdown]. destruct (Z.eq_dec start v) as [->|Hne].
    - left. reflexivity.
    - right. apply IH. lia. }
  intros Hr. apply H. lia.
Qed.

Lemma binary_round_aux_sign (sx : bool) (mx ex : Z) (lx : location) :
  binary_round_aux Py.prec Py.emax sx mx ex lx
  = (if sx then SFopp (binary_round_aux Py.prec Py.emax false mx ex lx)
     else binary_round_aux Py.prec Py.emax false mx ex lx).
Proof.
  destruct sx; [|reflexivity]. unfold binary_round_aux.
  destruct (shr_fexp Py.prec Py.emax mx ex lx) as [mrs' e'].
  destruct (shr_fexp Py.prec Py.emax _ e' loc_Exact) as [mrs'' e''].
  destruct (shr_m mrs''); try reflexivity.
  destruct (e'' <=? Py.emax - Py.prec); reflexivity.
Qed.

Lemma int_of_float_opp (x : Py.float) (n : Z) :
  Py.int_of_float x = inr n -> Py.int_of_float (SFopp x) = inr (- n).
Proof.
  destruct x as [s|s| |s m e]; cbn; try discriminate.
  - intros H. injection H as <-. reflexivity.
  - intros H. injection H as <-. destruct s; cbn; f_equal; lia.
Qed.

(** Negating a channel value negates the scaled reading. *)
Lemma scale_opp (p : positive) (n : Z) :
  SensorReader.scale (Zpos p) = inr n -> SensorReader.scale (Zneg p) = inr (- n).
Proof.
  unfold SensorReader.scale. intros H.
  assert (Hx : Py.float_of_int (Zneg p) = SFopp (Py.float_of_int (Zpos p))).
  { unfold Py.float_of_int, binary_round.
    destruct (shl_align p 0 _) as [mz ez].
    rewrite (binary_round_aux_sign true). reflexivity. }
  assert (Hd : forall x,
             SFdiv Py.prec Py.emax (SFopp x) SensorReader.lit_6_5536
             = SFopp (SFdiv Py.prec Py.emax x SensorReader.lit_6_5536)).
  { intros x.
    change SensorReader.lit_6_5536 with (S754_finite false 7378697629483821 (-50)).
    destruct x as [s|s| |s m e]; cbn [SFopp SFdiv]; try reflexivity.
    - destruct s; reflexivity.
    - destruct s; reflexivity.
    - destruct (SFdiv_core_binary Py.prec Py.emax (Z.pos m) e _ _) as [[mz ez] lz].
      rewrite (binary_round_aux_sign (xorb (negb s) false)),
              (binary_round_aux_sign (xorb s false)).
      destruct s; cbn [xorb negb]; try reflexivity.
      destruct (binary_round_aux _ _ false mz ez lz) as [[|]|[|]| |[|] ? ?]; reflexivity. }
  rewrite Hx, Hd. apply int_of_float_opp, H.
Qed.

Lemma scale_magnitude (v : Z) :
  0 <= v <= 32768 -> SensorReader.scale v = inr (trunc_scale v).
Proof.
  intros Hv.
  pose proof scale_is_trunc_all as Hall. rewrite forallb_forall in Hall.
  specialize (Hall v (channel_values_range v Hv)).
  unfold scale_is_trunc in Hall.
  change (SensorReader.scale v) with (scale_by_literal v).
  destruct (scale_by_literal v) as [e|raw]; [discriminate|].
  apply Z.eqb_eq in Hall. congruence.
Qed.

Lemma scale_16bit (v : Z) :
  -32768 <= v <= 32767 ->
  SensorReader.scale v = inr (trunc_scale v) /\ -5000 <= trunc_scale v <= 4999.
Proof.
  intros Hv. split.
  - destruct v as [|p|p].
    + apply scale_magnitude. lia.
    + apply scale_magnitude. lia.
    + rewrite (scale_opp p (trunc_scale (Zpos p))) by (apply scale_magnitude; lia).
      f_equal. unfold trunc_scale, trunc_div.
      change (Z.neg p) with (- Z.pos p).
      rewrite Z.mul_opp_l, Z.quot_opp_l by lia. reflexivity.
  - unfold trunc_scale, trunc_div.
    assert (H1 : (-5000 * 65536) ÷ 65536 <= (v * 10000) ÷ 65536)
      by (apply Z.quot_le_mono; lia).
    assert (H2 : (v * 10000) ÷ 65536 <= (4999 * 65536 + 65535) ÷ 65536)
      by (apply Z.quot_le_mono; lia).
    change ((-5000 * 65536) ÷ 65536) with (-5000) in H1.
    change ((4999 * 65536 + 65535) ÷ 65536) with 4999 in H2.
    lia.
Qed.

(** X15: on real hardware, when the four channels deliver signed 16 bit
    values, [read_moisture()] stores for each channel the value divided by
    6.5536 and cut toward zero, exactly as in exact arithmetic, and every
    stored value lies between -5000 and 4999. *)
Theorem read_moisture_real (b : SensorReader.backend) (s : SensorReader.state)
        (v : nat -> Z) :
  SensorReader.simulate s = false ->
  (forall ch, (ch < 4)%nat ->
              SensorReader.channel_value b ch = Some (v ch) /\
              -32768 <= v ch <= 32767) ->
  fst (SensorReader.read_moisture b s)
  = [trunc_scale (v 0%nat); trunc_scale (v 1%nat);
     trunc_scale (v 2%nat); trunc_scale (v 3%nat)] /\
  Forall (fun raw => -5000 <= raw <= 4999) (fst (SensorReader.read_moisture b s)).
Proof.
  intros Hsim Hch.
  destruct (Hch 0%nat ltac:(lia)) as [H0 R0]. destruct (Hch 1%nat ltac:(lia)) as [H1 R1].
  destruct (Hch 2%nat ltac:(lia)) as [H2 R2]. destruct (Hch 3%nat ltac:(lia)) as [H3 R3].
  destruct (scale_16bit _ R0) as [S0 B0]. destruct (scale_16bit _ R1) as [S1 B1].
  destruct (scale_16bit _ R2) as [S2 B2]. destruct (scale_16bit _ R3) as [S3 B3].
  unfold SensorReader.read_moisture. rewrite Hsim.
  cbn [SensorReader.scale_channels].
  rewrite H0, S0, H1, S1, H2, S2, H3, S3. cbn [fst].
  split; [reflexivity|]. repeat constructor; lia.
Qed.

Lemma read_moisture_real_witness :
  fst (SensorReader.read_moisture
         {| SensorReader.randint := fun _ => 0;
            SensorReader.channel_value := fun ch => Some (4096 * Z.of_nat ch) |}
         {| SensorReader.simulate := false; SensorReader.moisture := [0; 0; 0; 0] |})
  = [0; 625; 1250; 1875].
Proof.
  refine (proj1 (read_moisture_real
                   {| SensorReader.randint := fun _ => 0;
                      SensorReader.channel_value := fun ch => Some (4096 * Z.of_nat ch) |}
                   {| SensorReader.simulate := false;
                      SensorReader.moisture := [0; 0; 0; 0] |}
                   (fun ch => 4096 * Z.of_nat ch) eq_refl _)).
  intros ch Hch. split; [reflexivity | lia].
Defined.

Lemma percent_default (raw : Z) :
  -5000 <= raw <= 5000 ->
  SensorReader.percent raw SensorReader.default_dry SensorReader.default_wet
  = inr (trunc_moisture_percent raw SensorReader.default_dry SensorReader.default_wet).
Proof.
  intros Hrange.
  pose proof percent_is_trunc_all as Hall. rewrite forallb_forall in Hall.
  specialize (Hall raw (raw_values_range raw Hrange)).
  unfold percent_is_trunc in Hall.
  destruct (SensorReader.percent raw SensorReader.default_dry SensorReader.default_wet)
    as [e|n]; [discriminate|].
  apply Z.eqb_eq in Hall. congruence.
Qed.

Lemma trunc_moisture_percent_antitone (raw1 raw2 : Z) :
  raw1 <= raw2 ->
  trunc_moisture_percent raw2 SensorReader.default_dry SensorReader.default_wet
  <= trunc_moisture_percent raw1 SensorReader.default_dry SensorReader.default_wet.
Proof.
  intros Hle. unfold trunc_moisture_percent, clamp, trunc_div,
    SensorReader.default_dry, SensorReader.default_wet.
  assert (H : ((1023 - raw2) * 100) ÷ (1023 - 400) <= ((1023 - raw1) * 100) ÷ (1023 - 400))
    by (apply Z.quot_le_mono; lia).
  lia.
Qed.

(** X16: with the default bounds the percentage falls as the raw value
    rises: for two cached raw values between -5000 and 5000, the channel
    with the lower raw value reports at least the percentage of the other,
    and both calls succeed with a value from 0 to 100. *)
Theorem moisture_percent_antitone (s1 s2 : SensorReader.state) (i j raw1 raw2 : Z) :
  Py.getitem (SensorReader.moisture s1) i = inr raw1 ->
  Py.getitem (SensorReader.moisture s2) j = inr raw2 ->
  -5000 <= raw1 -> raw1 <= raw2 -> raw2 <= 5000 ->
  exists p1 p2,
    SensorReader.get_moisture_percent i SensorReader.default_dry
      SensorReader.default_wet s1 = inr p1 /\
    SensorReader.get_moisture_percent j SensorReader.default_dry
      SensorReader.default_wet s2 = inr p2 /\
    0 <= p2 /\ p2 <= p1 /\ p1 <= 100.
Proof.
  intros H1 H2 Hlo Hle Hhi.
  exists (trunc_moisture_percent raw1 SensorReader.default_dry SensorReader.default_wet),
         (trunc_moisture_percent raw2 SensorReader.default_dry SensorReader.default_wet).
  unfold SensorReader.get_moisture_percent. rewrite H1, H2.
  rewrite !percent_default by lia.
  repeat split; try apply trunc_moisture_percent_antitone; try assumption;
    unfold trunc_moisture_percent, clamp; lia.
Qed.

Lemma moisture_percent_antitone_witness :
  exists p1 p2,
    SensorReader.get_moisture_percent 0 SensorReader.default_dry
      SensorReader.default_wet (reader_with 450) = inr p1 /\
    SensorReader.get_moisture_percent 3 SensorReader.default_dry
      SensorReader.default_wet (reader_with 700) = inr p2 /\
    0 <= p2 /\ p2 <= p1 /\ p1 <= 100.
Proof.
  apply (moisture_percent_antitone (reader_with 450) (reader_with 700) 0 3 450 700);
    try reflexivity; lia.
Defined.

(** X17: in simulation, where each draw is a [randint(400, 800)], after
    [read_moisture()] every channel 0..3 reports, with the default bounds,
    a percentage from 35 to 100. *)
Theorem simulated_percent_range (b : SensorReader.backend) (s : SensorReader.state)
        (i : Z) :
  SensorReader.simulate s = true ->
  (forall k, 400 <= SensorReader.randint b k <= 800) ->
  0 <= i <= 3 ->
  exists p,
    SensorReader.get_moisture_percent i SensorReader.default_dry
      SensorReader.default_wet (snd (SensorReader.read_moisture b s)) = inr p /\
    35 <= p <= 100.
Proof.
  intros Hsim Hdraw Hi.
  unfold SensorReader.read_moisture. rewrite Hsim.
  cbn [snd SensorReader.moisture map].
  assert (Hraw : exists k, Py.getitem
                   [SensorReader.randint b 0%nat; SensorReader.randint b 1%nat;
                    SensorReader.randint b 2%nat; SensorReader.randint b 3%nat] i
                   = inr (SensorReader.randint b k)).
  { assert (Hcases : i = 0 \/ i = 1 \/ i = 2 \/ i = 3) by lia.
    destruct Hcases as [-> | [-> | [-> | ->]]]; eexists; reflexivity. }
  destruct Hraw as [k Hraw]. specialize (Hdraw k).
  exists (trunc_moisture_percent (SensorReader.randint b k)
            SensorReader.default_dry SensorReader.default_wet).
  unfold SensorReader.get_moisture_percent. cbn [SensorReader.moisture].
  rewrite Hraw, percent_default by lia. split; [reflexivity|].
  pose proof (trunc_moisture_percent_antitone (SensorReader.randint b k) 800
                ltac:(lia)) as Hlow.
  change (trunc_moisture_percent 800 SensorReader.default_dry SensorReader.default_wet)
    with 35 in Hlow.
  unfold trunc_moisture_percent, clamp in *. lia.
Qed.

Lemma simulated_percent_range_witness :
  exists p,
    SensorReader.get_moisture_percent 1 SensorReader.default_dry
      SensorReader.default_wet (reader_with 800) = inr p /\
    35 <= p <= 100.
Proof.
  apply (simulated_percent_range
           {| SensorReader.randint := fun _ => 800;
              SensorReader.channel_value := fun _ => None |}
           (SensorReader.__init__ true true) 1 eq_refl).
  - intros k. cbn. lia.
  - lia.
Defined.

(** ** The outcomes of [get_moisture_percent] *)

Lemma shr_1_nonneg (mrs : shr_record) :
  0 <= shr_m mrs -> 0 <= shr_m (shr_1 mrs).
Proof.
  destruct mrs as [m r s]. cbn [shr_m]. intros Hm.
  destruct m as [|p|p]; [cbn; lia| |lia].
  destruct p; cbn; lia.
Qed.

Lemma iter_pos_shr_1_nonneg (p : positive) (mrs : shr_record) :
  0 <= shr_m mrs -> 0 <= shr_m (iter_pos shr_1 p mrs).
Proof.
  revert mrs. induction p as [p IH | p IH |]; intros mrs Hm; cbn [iter_pos].
  - apply IH, IH, shr_1_nonneg, Hm.
  - apply IH, IH, Hm.
  - apply shr_1_nonneg, Hm.
Qed.

Lemma shr_fexp_nonneg (m e : Z) (l : location) :
  0 <= m -> 0 <= shr_m (fst (shr_fexp Py.prec Py.emax m e l)).
Proof.
  intros Hm. unfold shr_fexp, shr.
  assert (H0 : 0 <= shr_m (shr_record_of_loc m l)).
  { destruct l as [|[ | | ]]; exact Hm. }
  destruct (fexp Py.prec Py.emax (Zdigits2 m + e) - e); cbn [fst]; try exact H0.
  apply iter_pos_shr_1_nonneg, H0.
Qed.

Lemma round_nearest_even_nonneg (m : Z) (l : location) :
  0 <= m -> 0 <= round_nearest_even m l.
Proof.
  intros Hm. unfold round_nearest_even.
  destruct l as [|[ | | ]]; try destruct (Z.even m); lia.
Qed.

(** Rounding a non-negative mantissa never gives a NaN. *)
Lemma binary_round_aux_not_nan (sx : bool) (mx ex : Z) (lx : location) :
  0 <= mx -> binary_round_aux Py.prec Py.emax sx mx ex lx <> S754_nan.
Proof.
  intros Hm. unfold binary_round_aux.
  pose proof (shr_fexp_nonneg mx ex lx Hm) as H1.
  destruct (shr_fexp Py.prec Py.emax mx ex lx) as [mrs' e']. cbn [fst] in H1.
  pose proof (shr_fexp_nonneg _ e' loc_Exact
                (round_nearest_even_nonneg _ (loc_of_shr_record mrs') H1)) as H2.
  destruct (shr_fexp Py.prec Py.emax
              (round_nearest_even (shr_m mrs') (loc_of_shr_record mrs')) e' loc_Exact)
    as [mrs'' e'']. cbn [fst] in H2.
  destruct (shr_m mrs'') as [|p|p]; [discriminate| |lia].
  destruct (e'' <=? Py.emax - Py.prec); discriminate.
Qed.

Lemma int_truediv_outcome (a b : Z) :
  match Py.int_truediv a b with
  | inl Py.ZeroDivisionError => b = 0
  | inl Py.OverflowError => b <> 0
  | inl _ => False
  | inr q => b <> 0 /\ q <> S754_nan /\ forall s, q <> S754_infinity s
  end.
Proof.
  unfold Py.int_truediv. destruct (b =? 0) eqn:Hb.
  - apply Z.eqb_eq, Hb.
  - apply Z.eqb_neq in Hb.
    assert (Hq : forall sx sy mx my,
               SFdiv Py.prec Py.emax (S754_finite sx mx 0) (S754_finite sy my 0)
               <> S754_nan).
    { intros sx sy mx my. unfold SFdiv, SFdiv_core_binary.
      set (m' := match _ with Zpos _ => Z.shiftl (Zpos mx) _ | Z0 => Zpos mx | Zneg _ => 0 end).
      assert (Hm' : 0 <= m').
      { subst m'. destruct (0 - 0 - _); try lia. apply Z.shiftl_nonneg. lia. }
      pose proof (Z.div_pos m' (Zpos my) Hm' ltac:(lia)) as Hdiv.
      unfold Z.div in Hdiv.
      destruct (Z.div_eucl m' (Zpos my)) as [q r].
      apply binary_round_aux_not_nan, Hdiv. }
    assert (Hfin : forall x y,
               SFdiv Py.prec Py.emax x y <> S754_nan ->
               match
                 match SFdiv Py.prec Py.emax x y with
                 | S754_infinity _ => inl Py.OverflowError
                 | q => inr q
                 end
               with
               | inl Py.ZeroDivisionError => b = 0
               | inl Py.OverflowError => b <> 0
               | inl _ => False
               | inr q => b <> 0 /\ q <> S754_nan /\ (forall s, q <> S754_infinity s)
               end).
    { intros x y Hx. destruct (SFdiv Py.prec Py.emax x y);
        try congruence; repeat split; congruence. }
    destruct a as [|pa|pa], b as [|pb|pb]; try congruence;
      apply Hfin; try apply Hq; cbn; discriminate.
Qed.

Lemma float_mul_100_not_nan (q : Py.float) :
  q <> S754_nan -> (forall s, q <> S754_infinity s) ->
  Py.float_mul_int q 100 <> S754_nan.
Proof.
  intros Hnan Hinf. unfold Py.float_mul_int.
  change (Py.float_of_int 100)
    with (S754_finite false 7036874417766400 (-46)).
  destruct q as [s|s| |s m e]; cbn [SFmul]; try congruence.
  apply binary_round_aux_not_nan. lia.
Qed.

(** X18: what [get_moisture_percent] can do, for any index, bounds and
    cache: it returns a value from 0 to 100, or raises [IndexError] (exactly
    when the list rejects the index), [ZeroDivisionError] (exactly when the
    index is accepted and [dry == wet]) or [OverflowError] (only with an
    accepted index and [dry != wet]); it never raises [ValueError]. *)
Theorem moisture_percent_outcomes (s : SensorReader.state) (i dry wet : Z) :
  match SensorReader.get_moisture_percent i dry wet s with
  | inr p =>
      0 <= p <= 100 /\ dry <> wet /\
      exists raw, Py.getitem (SensorReader.moisture s) i = inr raw
  | inl Py.IndexError =>
      Py.getitem (SensorReader.moisture s) i = inl Py.IndexError
  | inl Py.ZeroDivisionError =>
      dry = wet /\ exists raw, Py.getitem (SensorReader.moisture s) i = inr raw
  | inl Py.OverflowError =>
      dry <> wet /\ exists raw, Py.getitem (SensorReader.moisture s) i = inr raw
  | inl Py.ValueError => False
  end.
Proof.
  unfold SensorReader.get_moisture_percent.
  assert (Hget : forall e, Py.getitem (SensorReader.moisture s) i = inl e ->
                           e = Py.IndexError).
  { intros e. unfold Py.getitem.
    destruct (_ || _); [congruence|].
    destruct (nth_error _ _); congruence. }
  destruct (Py.getitem (SensorReader.moisture s) i) as [e|raw] eqn:Hraw.
  - rewrite (Hget e eq_refl). reflexivity.
  - unfold SensorReader.percent.
    pose proof (int_truediv_outcome (dry - raw) (dry - wet)) as Hdiv.
    destruct (Py.int_truediv (dry - raw) (dry - wet)) as [[ | | | ]|q];
      try contradiction.
    + split; [lia | eauto].
    + split; [lia | eauto].
    + destruct Hdiv as (Hne & Hnan & Hinf).
      pose proof (float_mul_100_not_nan q Hnan Hinf) as Hmul.
      destruct (Py.float_mul_int q 100) as [sz|sz| |sz mz ez]; cbn [Py.int_of_float];
        try congruence; repeat split; eauto; lia.
Qed.

(** ** The routes of the web server *)

(** X19: [POST /api/timer/start] checks its input before it reaches the
    controller. With [seconds <= 0] or a speed outside 0..100 (30 and 100
    standing in for missing members) it answers 400 with "Invalid values"
    and changes nothing. Otherwise it answers 200 with [success] telling
    whether no timer was active, and when none was, it has started one
    thread for exactly these seconds and this speed, without callback, and
    the status fields [timer_remaining] and [timer_speed] show them. *)
Theorem timer_start_validates (data : Routes.payload) (a : Routes.app) :
  let seconds := Routes.get_default (Routes.seconds data) 30 in
  let speed := Routes.get_default (Routes.speed data) 100 in
  let c := System.controller (Routes.pump a) in
  let a' := snd (Routes.timer_start data a) in
  let c' := System.controller (Routes.pump a') in
  (seconds <= 0 \/ speed < 0 \/ 100 < speed ->
   Routes.timer_start data a = ((400, Routes.Invalid_values), a)) /\
  (0 < seconds -> 0 <= speed <= 100 ->
   fst (Routes.timer_start data a) = (200, Routes.Success (negb (timer_running c))) /\
   Routes.sensors a' = Routes.sensors a /\
   (timer_running c = true -> a' = a) /\
   (timer_running c = false ->
    System.workers (Routes.pump a')
    = System.workers (Routes.pump a) ++ [Spawned seconds speed] /\
    timer_running c' = true /\ timer_stop_flag c' = false /\
    timer_remaining c' = seconds /\ timer_speed c' = speed /\
    update_callback c' = None /\
    is_running c' = is_running c /\ current_speed c' = current_speed c)).
Proof.
  cbn zeta. unfold Routes.timer_start.
  set (seconds := Routes.get_default (Routes.seconds data) 30).
  set (speed := Routes.get_default (Routes.speed data) 100).
  split.
  - intros Hbad.
    assert (H : (seconds <=? 0) || (speed <? 0) || (100 <? speed) = true).
    { destruct Hbad as [H | [H | H]].
      - apply Z.leb_le in H. rewrite H. reflexivity.
      - apply Z.ltb_lt in H. rewrite H, orb_true_r. reflexivity.
      - apply Z.ltb_lt in H. rewrite H, orb_true_r. reflexivity. }
    rewrite H. reflexivity.
  - intros Hsec Hspd.
    assert (H : (seconds <=? 0) || (speed <? 0) || (100 <? speed) = false).
    { rewrite !orb_false_iff. repeat split;
        [apply Z.leb_gt | apply Z.ltb_ge | apply Z.ltb_ge]; lia. }
    rewrite H. destruct a as [[c ws l] sens temp]. split_state c.
    cbn [Routes.pump Routes.sensors System.controller System.workers fst snd].
    destruct trun; cbn; rewrite ?app_nil_r; repeat split; auto; discriminate.
Qed.

Lemma timer_start_validates_witness :
  Routes.timer_start {| Routes.speed := Some 101; Routes.seconds := None |}
    (Routes.init true true)
  = ((400, Routes.Invalid_values), Routes.init true true) /\
  fst (Routes.timer_start {| Routes.speed := None; Routes.seconds := Some 5 |}
         (Routes.init true true))
  = (200, Routes.Success true).
Proof.
  split.
  - apply (timer_start_validates
             {| Routes.speed := Some 101; Routes.seconds := None |}
             (Routes.init true true)).
    cbn. lia.
  - apply (proj2 (timer_start_validates
                    {| Routes.speed := None; Routes.seconds := Some 5 |}
                    (Routes.init true true))); cbn; lia.
Defined.



Lemma Forall_sleep_app (l1 l2 : list event) :
  Forall (fun e => e = Sleep 1) l1 -> Forall (fun e => e = Sleep 1) l2 ->
  Forall (fun e => e = Sleep 1) (l1 ++ l2).
Proof. intros H1 H2. apply Forall_app. auto. Qed.

Lemma after_web_invariant (h : Routes.happening) (a : Routes.app) :
  web_invariant a -> web_invariant (Routes.after h a).
Proof.
  intros (Hsim & Hcb & Hinv & Hspd & Hrem & Hlog & Hsens & Hlen).
  destruct a as [[c ws l] sens temp].
  cbn [Routes.pump Routes.sensors System.controller System.log] in *.
  destruct h as [bm bt | data | | data | | thread].
  - (* status *)
    unfold Routes.after, Routes.get_status.
    cbn [Routes.pump Routes.sensors].
    destruct (moisture_length_read bm sens Hlen) as [Hlen' _].
    assert (Hsim' : SensorReader.simulate (snd (SensorReader.read_moisture bm sens)) = true).
    { unfold SensorReader.read_moisture. rewrite Hsens. reflexivity. }
    destruct (Routes.moisture_percents _ _); cbn [snd];
      unfold web_invariant; cbn [Routes.pump Routes.sensors System.controller System.log];
      destruct Hinv as [Hoff Hon]; repeat split; close_invariant.
  - (* pump start *)
    destruct Hinv as [Hoff Hon]. split_state c. cbn in *. subst.
    unfold web_invariant, pump_invariant.
    cbn [Routes.after Routes.pump_start snd Routes.pump Routes.sensors
         System.step System.controller System.log].
    destruct run; cbn; rewrite ?app_nil_r; repeat split; close_invariant.
  - (* pump stop *)
    destruct Hinv as [Hoff Hon]. split_state c. cbn in *. subst.
    unfold web_invariant, pump_invariant.
    cbn [Routes.after Routes.pump_stop snd Routes.pump Routes.sensors
         System.step System.controller System.log].
    destruct run; cbn; rewrite ?app_nil_r; repeat split; close_invariant.
  - (* timer start *)
    unfold Routes.after, Routes.timer_start.
    set (seconds := Routes.get_default (Routes.seconds data) 30).
    set (speed := Routes.get_default (Routes.speed data) 100).
    destruct ((seconds <=? 0) || (speed <? 0) || (100 <? speed)) eqn:Hcheck.
    + cbn [snd]. unfold web_invariant.
      cbn [Routes.pump Routes.sensors System.controller System.log].
      destruct Hinv as [Hoff Hon]; repeat split; close_invariant.
    + rewrite !orb_false_iff in Hcheck. destruct Hcheck as [[H1 H2] H3].
      apply Z.leb_gt in H1. apply Z.ltb_ge in H2. apply Z.ltb_ge in H3.
      destruct Hinv as [Hoff Hon]. split_state c. cbn in *. subst.
      unfold web_invariant, pump_invariant.
      cbn [snd Routes.pump Routes.sensors System.step System.controller System.log].
      destruct trun; cbn; rewrite ?app_nil_r; repeat split; close_invariant.
  - (* timer stop *)
    destruct Hinv as [Hoff Hon]. split_state c. cbn in *. subst.
    unfold web_invariant, pump_invariant.
    cbn [Routes.after Routes.timer_stop snd Routes.pump Routes.sensors
         System.step System.controller System.log].
    destruct trun, run; cbn; rewrite ?app_nil_r; repeat split; close_invariant.
  - (* a timer thread *)
    destruct Hinv as [Hoff Hon]. split_state c. cbn in *. subst.
    unfold web_invariant, pump_invariant.
    cbn [Routes.after Routes.pump Routes.sensors System.step System.controller
         System.log System.workers].
    destruct (nth_error ws thread) as [[seconds speed | next]|];
      cbn [System.controller System.log]; unfold_methods.
    + destruct run, (seconds <=? -1) eqn:Hs, flag; cbn;
        rewrite ?app_nil_r; repeat split; try (apply Z.leb_gt in Hs);
        try (apply Forall_sleep_app; [assumption | repeat constructor]);
        close_invariant.
    + destruct run, (next <=? -1) eqn:Hs, flag; cbn;
        rewrite ?app_nil_r; repeat split; try (apply Z.leb_gt in Hs);
        try (apply Forall_sleep_app; [assumption | repeat constructor]);
        close_invariant.
    + repeat split; close_invariant.
Qed.

(** X21: at any time in the life of the web server, after any requests
    and timer thread steps: the controller is simulated and has no callback,
    so the only calls it has ever made are one second sleeps (no GPIO call,
    no callback); the PumpState invariant holds; the [timer_speed] that the
    status shows is within 0..100 and [timer_remaining] is not negative;
    the reader is simulated and caches four values. *)
Theorem web_server_invariant (gpio_importable libs_importable : bool)
        (history : list Routes.happening) :
  web_invariant (Routes.serve history (Routes.init gpio_importable libs_importable)).
Proof.
  unfold Routes.serve.
  assert (H : forall a, web_invariant a ->
                        web_invariant (fold_left (fun a h => Routes.after h a) history a)).
  { induction history as [|h history IH]; intros a Ha; [exact Ha|].
    cbn [fold_left]. apply IH, after_web_invariant, Ha. }
  apply H. unfold web_invariant, pump_invariant. cbn.
  repeat split; auto; intros; try discriminate; try lia.
Qed.

Lemma percent_of_draw (raw : Z) :
  400 <= raw <= 800 ->
  exists p,
    SensorReader.percent raw SensorReader.default_dry SensorReader.default_wet = inr p /\
    35 <= p <= 100.
Proof.
  intros Hraw. eexists. rewrite percent_default by lia. split; [reflexivity|].
  pose proof (trunc_moisture_percent_antitone raw 800 ltac:(lia)) as Hlow.
  change (trunc_moisture_percent 800 SensorReader.default_dry SensorReader.default_wet)
    with 35 in Hlow.
  unfold trunc_moisture_percent, clamp in *. lia.
Qed.

(** X22: [GET /api/status] in simulation. When the reader is simulated and
    every draw is a [randint(400, 800)], the request answers 200; the pump
    and timer fields of the answer are the controller's at that moment,
    the temperature is the fresh reading, and [moisture] has four entries,
    each from 35 to 100; the request reads the sensors and leaves the
    controller and its threads alone. *)
Theorem get_status_simulated (bm : SensorReader.backend) (bt : Thermometer.backend)
        (a : Routes.app) :
  SensorReader.simulate (Routes.sensors a) = true ->
  (forall k, 400 <= SensorReader.randint bm k <= 800) ->
  let c := System.controller (Routes.pump a) in
  let a' := snd (Routes.get_status bm bt a) in
  exists ps,
    fst (Routes.get_status bm bt a) =
      inr (200,
           Routes.Status
             {| Routes.pump_running := is_running c;
                Routes.pump_speed := current_speed c;
                Routes.timer_running := timer_running c;
                Routes.timer_remaining := timer_remaining c;
                Routes.timer_speed := timer_speed c;
                Routes.status_temperature := Routes.temperature a';
                Routes.moisture := ps |}) /\
    length ps = 4%nat /\ Forall (fun p => 35 <= p <= 100) ps /\
    Routes.pump a' = Routes.pump a /\
    SensorReader.moisture (Routes.sensors a')
    = [SensorReader.randint bm 0%nat; SensorReader.randint bm 1%nat;
       SensorReader.randint bm 2%nat; SensorReader.randint bm 3%nat] /\
    Routes.temperature a' =
      Thermometer.Float
        (Thermometer.round1
           (SFadd Py.prec Py.emax (Py.float_of_int 20) (Thermometer.uniform bt))).
Proof.
  intros Hsim Hdraw. cbn zeta. unfold Routes.get_status.
  unfold SensorReader.read_moisture. rewrite Hsim.
  cbn [snd SensorReader.simulate map Routes.moisture_percents].
  unfold SensorReader.get_moisture_percent. cbn [SensorReader.moisture].
  change (Py.getitem [SensorReader.randint bm 0%nat; SensorReader.randint bm 1%nat;
                      SensorReader.randint bm 2%nat; SensorReader.randint bm 3%nat] 0)
    with (@inr Py.exception Z (SensorReader.randint bm 0%nat)).
  change (Py.getitem [SensorReader.randint bm 0%nat; SensorReader.randint bm 1%nat;
                      SensorReader.randint bm 2%nat; SensorReader.randint bm 3%nat] 1)
    with (@inr Py.exception Z (SensorReader.randint bm 1%nat)).
  change (Py.getitem [SensorReader.randint bm 0%nat; SensorReader.randint bm 1%nat;
                      SensorReader.randint bm 2%nat; SensorReader.randint bm 3%nat] 2)
    with (@inr Py.exception Z (SensorReader.randint bm 2%nat)).
  change (Py.getitem [SensorReader.randint bm 0%nat; SensorReader.randint bm 1%nat;
                      SensorReader.randint bm 2%nat; SensorReader.randint bm 3%nat] 3)
    with (@inr Py.exception Z (SensorReader.randint bm 3%nat)).
  destruct (percent_of_draw _ (Hdraw 0%nat)) as (p0 & E0 & R0).
  destruct (percent_of_draw _ (Hdraw 1%nat)) as (p1 & E1 & R1).
  destruct (percent_of_draw _ (Hdraw 2%nat)) as (p2 & E2 & R2).
  destruct (percent_of_draw _ (Hdraw 3%nat)) as (p3 & E3 & R3).
  rewrite E0, E1, E2, E3. cbn [fst snd Routes.pump Routes.sensors Routes.temperature].
  exists [p0; p1; p2; p3]. repeat split; auto.
Qed.

Lemma get_status_simulated_witness :
  exists ps,
    length ps = 4%nat /\ Forall (fun p => 35 <= p <= 100) ps /\
    exists st,
      fst (Routes.get_status
             {| SensorReader.randint :=
                  fun k => match k with
                           | 0%nat => 400 | 1%nat => 550 | 2%nat => 700 | _ => 800
                           end;
                SensorReader.channel_value := fun _ => None |}
             {| Thermometer.uniform := S754_zero false;
                Thermometer.get_temperature := None |}
             (Routes.init true true))
      = inr (200, Routes.Status st) /\ Routes.moisture st = ps.
Proof.
  destruct (get_status_simulated
              {| SensorReader.randint :=
                  fun k => match k with
                           | 0%nat => 400 | 1%nat => 550 | 2%nat => 700 | _ => 800
                           end;
                 SensorReader.channel_value := fun _ => None |}
              {| Thermometer.uniform := S754_zero false;
                 Thermometer.get_temperature := None |}
              (Routes.init true true) eq_refl)
    as (ps & Hresp & Hlen & Hrange & _).
  - intros k. cbn [SensorReader.randint]. destruct k as [|[|[|k]]]; lia.
  - exists ps. repeat split; auto. eexists. split; [exact Hresp | reflexivity].
Defined.
